(** * CSCB student registration form: validation, progress, identity record

    Shallow embedding of [src/components/RegistrationForm.js] (the current
    form) and of the earlier revision of the same component, which differs in
    [calculateProgress] and in the student-number rule of [validateField]. *)

From Stdlib Require Import NArith ZArith List String Ascii Bool Lia.
From Stdlib Require Import Decimal DecimalN PrimFloat Uint63.
From stdpp Require Import base decidable option list gmap.

Local Open Scope N_scope.

(** ** JavaScript strings

    A JavaScript string is a finite sequence of UTF-16 code units.  The
    regular expressions of the component carry no [u] flag, so they too work
    code unit by code unit. *)

Abbreviation code_unit := N (only parsing).
Abbreviation jsstring := (list N) (only parsing).

(** [js "abc"] is the JavaScript string literal ['abc'] (the literals of the
    component are all ASCII). *)
Fixpoint js (s : string) : jsstring :=
  match s with
  | EmptyString => []
  | String a s' => N_of_ascii a :: js s'
  end.
Arguments js s%_string.

(** [cu "a"] is the code unit of a one-character literal. *)
Definition cu (a : ascii) : code_unit := N_of_ascii a.
Arguments cu a%_char.

(** ToBoolean on a string: only the empty string is falsy. *)
Definition truthy (s : jsstring) : bool :=
  match s with
  | [] => false
  | _ :: _ => true
  end.

(** [a === b] on strings. *)
Definition str_eq (a b : jsstring) : bool := bool_decide (a = b).

(** Number-to-string of a non-negative integer below 1e21 (decimal digits, no
    exponent), as a template literal performs it on [Date.now()]. *)
Fixpoint uint_digits (u : Decimal.uint) : jsstring :=
  match u with
  | Nil => []
  | D0 u' => 48 :: uint_digits u'
  | D1 u' => 49 :: uint_digits u'
  | D2 u' => 50 :: uint_digits u'
  | D3 u' => 51 :: uint_digits u'
  | D4 u' => 52 :: uint_digits u'
  | D5 u' => 53 :: uint_digits u'
  | D6 u' => 54 :: uint_digits u'
  | D7 u' => 55 :: uint_digits u'
  | D8 u' => 56 :: uint_digits u'
  | D9 u' => 57 :: uint_digits u'
  end.

Definition number_to_string (n : N) : jsstring := uint_digits (N.to_uint n).

(** ** Regular expressions

    The fragment of the RegExp syntax the component uses: character classes,
    literals, concatenation, [{n}] and [+], always between [^] and [$] and
    without flags, so that [test] asks whether the whole string matches. *)
Module RegExp.

Inductive regex : Type :=
| Void : regex
| Eps : regex
| Cls : (code_unit -> bool) -> regex
| Cat : regex -> regex -> regex
| Star : regex -> regex.

(** [x-y] inside a class. *)
Definition range (lo hi : ascii) : code_unit -> bool :=
  fun c => (cu lo <=? c) && (c <=? cu hi).

(** [\d] is [[0-9]]. *)
Definition class_d : code_unit -> bool := range "0" "9".

(** [\s]: the WhiteSpace and LineTerminator code points of ECMAScript. *)
Definition class_s : code_unit -> bool :=
  fun c =>
    (9 <=? c) && (c <=? 13)            (* TAB LF VT FF CR *)
    || (c =? 32)                       (* SPACE *)
    || (c =? 160)                      (* U+00A0 *)
    || (c =? 5760)                     (* U+1680 *)
    || (8192 <=? c) && (c <=? 8202)    (* U+2000 .. U+200A *)
    || (c =? 8232) || (c =? 8233)      (* U+2028, U+2029 *)
    || (c =? 8239)                     (* U+202F *)
    || (c =? 8287)                     (* U+205F *)
    || (c =? 12288)                    (* U+3000 *)
    || (c =? 65279).                   (* U+FEFF *)

Definition union (p q : code_unit -> bool) : code_unit -> bool :=
  fun c => p c || q c.

(** A literal character and a literal run of characters. *)
Definition Lit (a : ascii) : regex := Cls (N.eqb (cu a)).
Arguments Lit a%_char.

Fixpoint Lits (s : string) : regex :=
  match s with
  | EmptyString => Eps
  | String a s' => Cat (Lit a) (Lits s')
  end.
Arguments Lits s%_string.

(** [r{n}] and [r+]. *)
Fixpoint Rep (n : nat) (r : regex) : regex :=
  match n with
  | O => Eps
  | S n' => Cat r (Rep n' r)
  end.

Definition Plus (r : regex) : regex := Cat r (Star r).

(** Matching by derivatives. *)
Fixpoint nullable (r : regex) : bool :=
  match r with
  | Void => false
  | Eps => true
  | Cls _ => false
  | Cat r1 r2 => nullable r1 && nullable r2
  | Star _ => true
  end.

Fixpoint deriv (c : code_unit) (r : regex) : list regex :=
  match r with
  | Void => []
  | Eps => []
  | Cls p => if p c then [Eps] else []
  | Cat r1 r2 =>
      map (fun d => Cat d r2) (deriv c r1)
      ++ (if nullable r1 then deriv c r2 else [])
  | Star r1 => map (fun d => Cat d (Star r1)) (deriv c r1)
  end.

(** [/^r$/.test(s)]: the set of residuals is followed along the string. *)
Fixpoint run (rs : list regex) (s : jsstring) : bool :=
  match s with
  | [] => existsb nullable rs
  | c :: s' => run (flat_map (deriv c) rs) s'
  end.

Definition test (r : regex) (s : jsstring) : bool := run [r] s.

(** The language of a regular expression. *)
Inductive matches : regex -> jsstring -> Prop :=
| M_Eps : matches Eps []
| M_Cls p c : p c = true -> matches (Cls p) [c]
| M_Cat r1 r2 s1 s2 :
    matches r1 s1 -> matches r2 s2 -> matches (Cat r1 r2) (s1 ++ s2)
| M_Star_nil r : matches (Star r) []
| M_Star_app r s1 s2 :
    matches r s1 -> matches (Star r) s2 -> matches (Star r) (s1 ++ s2).

End RegExp.

(** ** JSON.stringify on an object of strings *)
Module JSON.

Definition hex_digit (n : N) : code_unit :=
  if n <? 10 then 48 + n else 87 + n.

(** UnicodeEscape: a backslash, [u] and four lowercase hexadecimal digits. *)
Definition unicode_escape (c : code_unit) : jsstring :=
  [92; 117; hex_digit (c / 4096 mod 16); hex_digit (c / 256 mod 16);
   hex_digit (c / 16 mod 16); hex_digit (c mod 16)].

Definition is_leading_surrogate (c : code_unit) : bool :=
  (55296 <=? c) && (c <=? 56319).
Definition is_trailing_surrogate (c : code_unit) : bool :=
  (56320 <=? c) && (c <=? 57343).

(** One code point that is not the start of a surrogate pair. *)
Definition quote_unit (c : code_unit) : jsstring :=
  if c =? 8 then [92; 98]              (* \b *)
  else if c =? 9 then [92; 116]        (* \t *)
  else if c =? 10 then [92; 110]       (* \n *)
  else if c =? 12 then [92; 102]       (* \f *)
  else if c =? 13 then [92; 114]       (* \r *)
  else if c =? 34 then [92; 34]        (* the double quote *)
  else if c =? 92 then [92; 92]        (* the backslash *)
  else if (c <? 32) || is_leading_surrogate c || is_trailing_surrogate c
       then unicode_escape c
  else [c].

Fixpoint quote_chars (s : jsstring) : jsstring :=
  match s with
  | [] => []
  | c :: s' =>
      if is_leading_surrogate c then
        match s' with
        | d :: s'' =>
            if is_trailing_surrogate d then c :: d :: quote_chars s''
            else unicode_escape c ++ quote_chars s'
        | [] => unicode_escape c
        end
      else quote_unit c ++ quote_chars s'
  end.

(** QuoteJSONString. *)
Definition quote (s : jsstring) : jsstring := [34] ++ quote_chars s ++ [34].

(** The members of an object in property order, without white space. *)
Fixpoint members (kvs : list (jsstring * jsstring)) : jsstring :=
  match kvs with
  | [] => []
  | [(k, v)] => quote k ++ [58] ++ quote v
  | (k, v) :: rest => quote k ++ [58] ++ quote v ++ [44] ++ members rest
  end.

Definition stringify_object (kvs : list (jsstring * jsstring)) : jsstring :=
  [123] ++ members kvs ++ [125].

(** *** Reading back

    A reader for what [quote_chars] and [stringify_object] write.  The
    component never parses; the reader serves to show that the serialized
    record determines the record. *)

Definition hex_value (h : code_unit) : option N :=
  if (48 <=? h) && (h <=? 57) then Some (h - 48)
  else if (97 <=? h) && (h <=? 102) then Some (h - 87)
  else None.

Definition unescape (e : code_unit) : option code_unit :=
  if e =? 98 then Some 8
  else if e =? 116 then Some 9
  else if e =? 110 then Some 10
  else if e =? 102 then Some 12
  else if e =? 114 then Some 13
  else if e =? 34 then Some 34
  else if e =? 92 then Some 92
  else None.

Definition push (c : code_unit) (r : option (jsstring * jsstring))
  : option (jsstring * jsstring) :=
  match r with
  | Some (v, rest) => Some (c :: v, rest)
  | None => None
  end.

(** The characters up to the closing quote, and what follows it. *)
Fixpoint read_chars (s : jsstring) : option (jsstring * jsstring) :=
  match s with
  | [] => None
  | c :: s1 =>
      if c =? 34 then Some ([], s1)
      else if c =? 92 then
        match s1 with
        | [] => None
        | e :: s2 =>
            if e =? 117 then
              match s2 with
              | h1 :: h2 :: h3 :: h4 :: s3 =>
                  match hex_value h1, hex_value h2, hex_value h3, hex_value h4 with
                  | Some a, Some b, Some c', Some d =>
                      push (4096 * a + 256 * b + 16 * c' + d) (read_chars s3)
                  | _, _, _, _ => None
                  end
              | _ => None
              end
            else
              match unescape e with
              | Some u => push u (read_chars s2)
              | None => None
              end
        end
      else push c (read_chars s1)
  end.

(** [strip prefix s] is the rest of [s] after [prefix]. *)
Fixpoint strip (prefix s : jsstring) : option jsstring :=
  match prefix, s with
  | [], _ => Some s
  | p :: prefix', c :: s' => if p =? c then strip prefix' s' else None
  | _ :: _, [] => None
  end.

(** The value of the member [key] at the head of [s], and what follows. *)
Definition read_member (key s : jsstring) : option (jsstring * jsstring) :=
  match strip (quote key ++ [58; 34]) s with
  | Some s' => read_chars s'
  | None => None
  end.

End JSON.

(** ** The component *)

(** [formData]: the object of [useState], which always carries these five
    string properties. *)
Record FormData : Type := mkFormData {
  studentNumber : jsstring;
  lastName : jsstring;
  firstName : jsstring;
  program : jsstring;
  yearLevel : jsstring
}.

(** The record [generateStaticIdentity] builds, in property order. *)
Module Identity.
Record t : Type := mk {
  studentNumber : jsstring;
  fullName : jsstring;
  program : jsstring;
  yearLevel : jsstring;
  registrationDate : jsstring;
  id : jsstring
}.

Definition stringify (i : t) : jsstring :=
  JSON.stringify_object
    [(js "studentNumber", studentNumber i);
     (js "fullName", fullName i);
     (js "program", program i);
     (js "yearLevel", yearLevel i);
     (js "registrationDate", registrationDate i);
     (js "id", id i)].

(** Reads a serialized record back. *)
Definition parse (s : jsstring) : option t :=
  s ← JSON.strip [123] s;
  '(v1, s) ← JSON.read_member (js "studentNumber") s;
  s ← JSON.strip [44] s;
  '(v2, s) ← JSON.read_member (js "fullName") s;
  s ← JSON.strip [44] s;
  '(v3, s) ← JSON.read_member (js "program") s;
  s ← JSON.strip [44] s;
  '(v4, s) ← JSON.read_member (js "yearLevel") s;
  s ← JSON.strip [44] s;
  '(v5, s) ← JSON.read_member (js "registrationDate") s;
  s ← JSON.strip [44] s;
  '(v6, s) ← JSON.read_member (js "id") s;
  s ← JSON.strip [125] s;
  match s with
  | [] => Some (mk v1 v2 v3 v4 v5 v6)
  | _ :: _ => None
  end.
End Identity.

(** The state of the component: one field per [useState]. *)
Record State : Type := mkState {
  formData : FormData;
  qrCodeUrl : jsstring;
  isRegistered : bool;
  showModal : bool;
  isProcessing : bool;
  fieldErrors : gmap (list N) (list N);
  registrationData : option Identity.t
}.

Definition initialFormData : FormData :=
  {| studentNumber := js ""; lastName := js ""; firstName := js "";
     program := js ""; yearLevel := js "" |}.

Definition initialState : State :=
  {| formData := initialFormData; qrCodeUrl := js ""; isRegistered := false;
     showModal := false; isProcessing := false; fieldErrors := ∅;
     registrationData := None |}.

(** [formData[field]]; [None] is [undefined]. *)
Definition get_field (fd : FormData) (field : jsstring) : option jsstring :=
  if str_eq field (js "studentNumber") then Some (studentNumber fd)
  else if str_eq field (js "lastName") then Some (lastName fd)
  else if str_eq field (js "firstName") then Some (firstName fd)
  else if str_eq field (js "program") then Some (program fd)
  else if str_eq field (js "yearLevel") then Some (yearLevel fd)
  else None.

(** [{...prevData, [name]: value}].  The inputs that fire the change handler
    are named after the five properties; any other name would add a property
    that nothing reads, so it leaves the five as they are. *)
Definition set_field (prevData : FormData) (name value : jsstring) : FormData :=
  if str_eq name (js "studentNumber") then
    {| studentNumber := value; lastName := lastName prevData;
       firstName := firstName prevData; program := program prevData;
       yearLevel := yearLevel prevData |}
  else if str_eq name (js "lastName") then
    {| studentNumber := studentNumber prevData; lastName := value;
       firstName := firstName prevData; program := program prevData;
       yearLevel := yearLevel prevData |}
  else if str_eq name (js "firstName") then
    {| studentNumber := studentNumber prevData; lastName := lastName prevData;
       firstName := value; program := program prevData;
       yearLevel := yearLevel prevData |}
  else if str_eq name (js "program") then
    {| studentNumber := studentNumber prevData; lastName := lastName prevData;
       firstName := firstName prevData; program := value;
       yearLevel := yearLevel prevData |}
  else if str_eq name (js "yearLevel") then
    {| studentNumber := studentNumber prevData; lastName := lastName prevData;
       firstName := firstName prevData; program := program prevData;
       yearLevel := value |}
  else prevData.

Definition programs : list jsstring :=
  [js "Bachelor of Science in Information Technology";
   js "Diploma in Information Technology"].

Definition getYearLevels (program : jsstring) : list jsstring :=
  if str_eq program (js "Bachelor of Science in Information Technology") then
    [js "1st Year"; js "2nd Year"; js "3rd Year"; js "4th Year"]
  else if str_eq program (js "Diploma in Information Technology") then
    [js "1st Year"; js "2nd Year"; js "3rd Year"]
  else [].

(** Numbers are IEEE 754 doubles. *)
Definition number_of_nat (n : nat) : float :=
  PrimFloat.of_uint63 (Uint63.of_Z (Z.of_nat n)).

(** [formData[field] !== ''] *)
Definition filled (fd : FormData) (field : jsstring) : bool :=
  negb (bool_decide (get_field fd field = Some (js ""))).

Definition baseFields : list jsstring :=
  [js "studentNumber"; js "lastName"; js "firstName"; js "program"].

Definition calculateProgress (formData : FormData) : float :=
  let baseFilledFields := length (List.filter (filled formData) baseFields) in
  if truthy (program formData) then
    let totalFields := 5%nat in
    let totalFilledFields :=
      if truthy (yearLevel formData) then (baseFilledFields + 1)%nat
      else baseFilledFields in
    PrimFloat.mul
      (PrimFloat.div (number_of_nat totalFilledFields) (number_of_nat totalFields))
      100%float
  else
    PrimFloat.mul
      (PrimFloat.div (number_of_nat baseFilledFields)
         (number_of_nat (length baseFields)))
      100%float.

(** [/^\d{4}-\d{5}-TG-0$/] *)
Definition studentIdPattern : RegExp.regex :=
  RegExp.Cat (RegExp.Rep 4 (RegExp.Cls RegExp.class_d))
    (RegExp.Cat (RegExp.Lit "-")
       (RegExp.Cat (RegExp.Rep 5 (RegExp.Cls RegExp.class_d))
          (RegExp.Lits "-TG-0"))).

(** [/^[a-zA-Z\s]+$/] *)
Definition namePattern : RegExp.regex :=
  RegExp.Plus
    (RegExp.Cls
       (RegExp.union (RegExp.range "a" "z")
          (RegExp.union (RegExp.range "A" "Z") RegExp.class_s))).

Definition validateField (name value : jsstring) : jsstring :=
  let error := js "" in
  let error :=
    if str_eq name (js "studentNumber") && truthy value then
      if negb (RegExp.test studentIdPattern value) then
        js "Student ID must follow format: YYYY-NNNNN-TG-0 (e.g., 2023-00000-TG-0)"
      else error
    else error in
  let error :=
    if (str_eq name (js "lastName") || str_eq name (js "firstName"))
       && truthy value && negb (RegExp.test namePattern value) then
      js "Name should contain only letters"
    else error in
  error.

(** The three state updates of the handler, applied in order. *)
Definition handleInputChange (name value : jsstring) (st : State) : State :=
  let error := validateField name value in
  let fieldErrors' := <[name := error]> (fieldErrors st) in
  let formData' := set_field (formData st) name value in
  let formData'' :=
    if str_eq name (js "program") then
      {| studentNumber := studentNumber formData';
         lastName := lastName formData';
         firstName := firstName formData';
         program := program formData';
         yearLevel := js "" |}
    else formData' in
  {| formData := formData''; qrCodeUrl := qrCodeUrl st;
     isRegistered := isRegistered st; showModal := showModal st;
     isProcessing := isProcessing st; fieldErrors := fieldErrors';
     registrationData := registrationData st |}.

(** What the browser supplies to a submission: the two clock readings and
    whether [localStorage.setItem] accepts a write (it throws when the quota
    is exceeded). *)
Record Browser : Type := mkBrowser {
  toISOString : jsstring;
  now : N;
  quota_allows : gmap (list N) (list N) -> jsstring -> jsstring -> bool
}.

Definition generateStaticIdentity (env : Browser) (formData : FormData)
  : Identity.t :=
  let timestamp := toISOString env in
  {| Identity.studentNumber := studentNumber formData;
     Identity.fullName := firstName formData ++ js " " ++ lastName formData;
     Identity.program := program formData;
     Identity.yearLevel := yearLevel formData;
     Identity.registrationDate := timestamp;
     Identity.id :=
       js "CSCB-" ++ studentNumber formData ++ js "-"
       ++ number_to_string (now env) |}.

(** The effects of a submission that leave the component. *)
Inductive effect : Type :=
| Alert (message : jsstring)
| SetItem (key value : jsstring).

(** [localStorage.setItem(key, value)]; [None] when it throws. *)
Definition setItem (env : Browser) (localStorage : gmap (list N) (list N))
  (key value : jsstring) : option (gmap (list N) (list N)) :=
  if quota_allows env localStorage key value
  then Some (<[key := value]> localStorage)
  else None.

(** [Object.values(fieldErrors).some(error => error !== '')] *)
Definition hasErrors (fieldErrors : gmap (list N) (list N)) : bool :=
  existsb (fun error => negb (str_eq error (js "")))
    (map snd (map_to_list fieldErrors)).

(** One run of the submit handler: the state the component is left in, the
    local storage, and the effects in order.  The handler reads [formData] and
    [fieldErrors] of the render it closes over, also after its one-second
    delay, which is not modelled; no other event is taken to arrive in
    between.  Console output is left out. *)
Definition handleSubmit (env : Browser) (st : State)
  (localStorage : gmap (list N) (list N))
  : State * gmap (list N) (list N) * list effect :=
  let fd := formData st in
  if negb (truthy (studentNumber fd)) || negb (truthy (lastName fd))
     || negb (truthy (firstName fd)) || negb (truthy (program fd))
     || negb (truthy (yearLevel fd)) then
    (st, localStorage, [Alert (js "Please fill in all fields")])
  else if hasErrors (fieldErrors st) then
    (st, localStorage, [Alert (js "Please fix the errors before submitting")])
  else
    let identity := generateStaticIdentity env fd in
    let key := js "student_" ++ studentNumber fd in
    let value := Identity.stringify identity in
    match setItem env localStorage key value with
    | Some localStorage' =>
        ({| formData := fd; qrCodeUrl := qrCodeUrl st;
            isRegistered := true; showModal := true; isProcessing := false;
            fieldErrors := fieldErrors st;
            registrationData := Some identity |},
         localStorage', [SetItem key value])
    | None =>
        ({| formData := fd; qrCodeUrl := qrCodeUrl st;
            isRegistered := isRegistered st; showModal := showModal st;
            isProcessing := false; fieldErrors := fieldErrors st;
            registrationData := registrationData st |},
         localStorage,
         [SetItem key value; Alert (js "Registration failed. Please try again.")])
    end.

(** ** The earlier revision of the component *)
Module Legacy.

Definition calculateProgress (formData : FormData) : float :=
  let fields :=
    [js "studentNumber"; js "lastName"; js "firstName"; js "program";
     js "yearLevel"] in
  let filledFields := length (List.filter (filled formData) fields) in
  PrimFloat.mul
    (PrimFloat.div (number_of_nat filledFields) (number_of_nat (length fields)))
    100%float.

(** [/^[a-zA-Z0-9-]+$/] *)
Definition studentNumberPattern : RegExp.regex :=
  RegExp.Plus
    (RegExp.Cls
       (RegExp.union (RegExp.range "a" "z")
          (RegExp.union (RegExp.range "A" "Z")
             (RegExp.union (RegExp.range "0" "9") (N.eqb (cu "-")))))).

Definition validateField (name value : jsstring) : jsstring :=
  let error := js "" in
  let error :=
    if str_eq name (js "studentNumber") && truthy value
       && negb (RegExp.test studentNumberPattern value) then
      js "Student number should contain only letters, numbers, and hyphens"
    else error in
  let error :=
    if (str_eq name (js "lastName") || str_eq name (js "firstName"))
       && truthy value && negb (RegExp.test namePattern value) then
      js "Name should contain only letters"
    else error in
  error.

End Legacy.

(** ** The rules in the words of the specification *)

Definition is_digit (c : code_unit) : bool := (48 <=? c) && (c <=? 57).

Definition is_ascii_letter (c : code_unit) : bool :=
  (65 <=? c) && (c <=? 90) || (97 <=? c) && (c <=? 122).

(** The white space of ECMAScript, code point by code point. *)
Definition whitespace_code_points : list code_unit :=
  [9; 10; 11; 12; 13; 32; 160; 5760;
   8192; 8193; 8194; 8195; 8196; 8197; 8198; 8199; 8200; 8201; 8202;
   8232; 8233; 8239; 8287; 12288; 65279].

Definition is_whitespace (c : code_unit) : bool :=
  bool_decide (c ∈ whitespace_code_points).

(** "Letters and whitespace only". *)
Definition only_letters_and_whitespace (v : jsstring) : bool :=
  forallb (fun c => is_ascii_letter c || is_whitespace c) v.

(** "Letter-only". *)
Definition only_letters (v : jsstring) : bool := forallb is_ascii_letter v.

(** The strict format [YYYY-NNNNN-TG-0]: four digits, a hyphen, five digits,
    a hyphen, the literal [TG], a hyphen, the digit [0]. *)
Definition canonical_format (v : jsstring) : Prop :=
  exists year seq : jsstring,
    length year = 4%nat /\ forallb is_digit year = true /\
    length seq = 5%nat /\ forallb is_digit seq = true /\
    v = year ++ js "-" ++ seq ++ js "-" ++ js "TG" ++ js "-" ++ js "0".

(** A well-formed input of the identity builder. *)
Definition well_formed (fd : FormData) : Prop :=
  canonical_format (studentNumber fd) /\
  firstName fd <> js "" /\ only_letters (firstName fd) = true /\
  lastName fd <> js "" /\ only_letters (lastName fd) = true /\
  In (program fd) programs /\
  In (yearLevel fd) (getYearLevels (program fd)).

(** The number of non-empty fields among the four base fields. *)
Definition baseFilled (fd : FormData) : nat :=
  (Nat.b2n (truthy (studentNumber fd)) + Nat.b2n (truthy (lastName fd))
   + Nat.b2n (truthy (firstName fd)) + Nat.b2n (truthy (program fd)))%nat.

(** The form is complete: every field is truthy. *)
Definition complete (fd : FormData) : bool :=
  truthy (studentNumber fd) && truthy (lastName fd) && truthy (firstName fd)
  && truthy (program fd) && truthy (yearLevel fd).

(** A submission is blocked: one alert, and nothing else happens. *)
Definition blocked (st : State) (localStorage : gmap (list N) (list N))
  (out : State * gmap (list N) (list N) * list effect) : Prop :=
  exists message, out = (st, localStorage, [Alert message]).

(** A submission passes both checks: the handler reaches
    [localStorage.setItem] with the serialized [record], and where the storage
    accepts the write the record is what the key holds afterwards. *)
Definition passes_checks (env : Browser) (st : State)
  (localStorage : gmap (list N) (list N)) (record : Identity.t) : Prop :=
  let key := js "student_" ++ studentNumber (formData st) in
  let value := Identity.stringify record in
  exists st' localStorage' rest,
    handleSubmit env st localStorage
    = (st', localStorage', SetItem key value :: rest)
    /\ (quota_allows env localStorage key value = true ->
        localStorage' !! key = Some value /\ rest = []
        /\ registrationData st' = Some record).

(** A submission succeeded: the handler raised no alert (both checks and the
    [catch] branch alert). *)
Definition succeeded (effects : list effect) : bool :=
  forallb (fun e => match e with Alert _ => false | SetItem _ _ => true end)
    effects.

(** [formData] with another year level. *)
Definition with_yearLevel (fd : FormData) (y : jsstring) : FormData :=
  {| studentNumber := studentNumber fd; lastName := lastName fd;
     firstName := firstName fd; program := program fd; yearLevel := y |}.

(** ** Scenarios *)

(** The user types into the form: one change event per entry. *)
Definition type_in (events : list (jsstring * jsstring)) (st : State) : State :=
  fold_left (fun st e => handleInputChange (fst e) (snd e) st) events st.

Definition ana_form : FormData :=
  {| studentNumber := js "2023-00011-TG-0"; lastName := js "Cruz";
     firstName := js "Ana"; program := js "Diploma in Information Technology";
     yearLevel := js "2nd Year" |}.

Definition ana_state : State :=
  type_in
    [(js "studentNumber", js "2023-00011-TG-0");
     (js "firstName", js "Ana");
     (js "lastName", js "Cruz");
     (js "program", js "Diploma in Information Technology");
     (js "yearLevel", js "2nd Year")]
    initialState.

(** The user of [ana_state] then picks the other program, which empties the
    year level. *)
Definition program_rechosen_state : State :=
  handleInputChange (js "program")
    (js "Bachelor of Science in Information Technology") ana_state.

(** The same user picks the other program and a year level again. *)
Definition program_year_rechosen_state : State :=
  handleInputChange (js "yearLevel") (js "4th Year") program_rechosen_state.

(** The user of [ana_state] then replaces the student number by [abc]. *)
Definition abc_state : State :=
  handleInputChange (js "studentNumber") (js "abc") ana_state.

(** A browser whose storage accepts every write, at some instant. *)
Definition a_browser : Browser :=
  {| toISOString := js "2025-06-02T08:30:00.000Z";
     now := 1748853000000;
     quota_allows := fun _ _ _ => true |}.

(** A browser whose storage is full. *)
Definition a_full_browser : Browser :=
  {| toISOString := js "2025-06-02T08:30:00.000Z";
     now := 1748853000000;
     quota_allows := fun _ _ _ => false |}.

(** ** The rest of the component *)

(** [resetForm]: six setters; [isProcessing] is not among them. *)
Definition resetForm (st : State) : State :=
  {| formData := initialFormData; qrCodeUrl := js ""; isRegistered := false;
     showModal := false; isProcessing := isProcessing st; fieldErrors := ∅;
     registrationData := None |}.

Definition closeModal (st : State) : State :=
  {| formData := formData st; qrCodeUrl := qrCodeUrl st;
     isRegistered := isRegistered st; showModal := false;
     isProcessing := isProcessing st; fieldErrors := fieldErrors st;
     registrationData := registrationData st |}.

Definition setQrCodeUrl (dataUrl : jsstring) (st : State) : State :=
  {| formData := formData st; qrCodeUrl := dataUrl;
     isRegistered := isRegistered st; showModal := showModal st;
     isProcessing := isProcessing st; fieldErrors := fieldErrors st;
     registrationData := registrationData st |}.

(** [disabled] of the submit button. *)
Definition submitDisabled (st : State) : bool :=
  isProcessing st || negb (truthy (studentNumber (formData st)))
  || negb (truthy (lastName (formData st)))
  || negb (truthy (firstName (formData st)))
  || negb (truthy (program (formData st)))
  || negb (truthy (yearLevel (formData st))).

(** What the download and the drawing of the code do to the page. *)
Inductive ui_effect : Type :=
| ShowAlert (message : jsstring)
| LinkClick (download href : jsstring)
| WindowOpen (url target : jsstring)
| ToCanvas (text : jsstring) (width margin : N)
    (dark light errorCorrectionLevel : jsstring).

(** [downloadQRCode]: a click on an anchor that carries the file name and the
    image. *)
Definition downloadQRCode (st : State) : list ui_effect :=
  if truthy (qrCodeUrl st) then
    [LinkClick
       (firstName (formData st) ++ js "_" ++ lastName (formData st)
        ++ js "_QRCode.png")
       (qrCodeUrl st)]
  else [].

(** The canvas of the page and the QR library behind it: whether
    [canvasRef.current] is set, and the data URL the canvas gives once
    [QRCode.toCanvas] has drawn a text ([None] when the drawing throws). *)
Record Canvas : Type := mkCanvas {
  mounted : bool;
  draw : jsstring -> option jsstring
}.

(** [generateQRCode], on the state that is current when the awaited drawing
    ends; clearing the canvas is taken not to throw. *)
Definition generateQRCode (canvas : Canvas) (identity : Identity.t)
  (st : State) : State * list ui_effect :=
  let qrData := Identity.stringify identity in
  if negb (mounted canvas) then (st, [])
  else
    let call :=
      ToCanvas qrData 300 2 (js "#000000") (js "#FFFFFF") (js "M") in
    match draw canvas qrData with
    | Some dataUrl => (setQrCodeUrl dataUrl st, [call])
    | None =>
        (st, [call;
              ShowAlert (js "Failed to generate QR code. Please try again.")])
    end.

(** The effect on [isRegistered] and [registrationData]. *)
Definition registrationEffect (canvas : Canvas) (st : State)
  : State * list ui_effect :=
  match registrationData st with
  | Some identity =>
      if isRegistered st && mounted canvas
      then generateQRCode canvas identity st
      else (st, [])
  | None => (st, [])
  end.

(** [haystack.includes(needle)] *)
Fixpoint starts_with (needle haystack : jsstring) : bool :=
  match needle, haystack with
  | [], _ => true
  | _ :: _, [] => false
  | a :: needle', b :: haystack' => (a =? b) && starts_with needle' haystack'
  end.

Fixpoint includes (haystack needle : jsstring) : bool :=
  starts_with needle haystack
  || match haystack with
     | [] => false
     | _ :: haystack' => includes haystack' needle
     end.

(** [needle] occurs in [haystack]. *)
Definition occurs_in (needle haystack : jsstring) : Prop :=
  exists before after : jsstring, haystack = before ++ needle ++ after.

(** The names by which the earlier download tells an in-app browser, the one
    subsumed by another left out. *)
Definition in_app_markers : list jsstring :=
  [js "FBAN"; js "FBAV"; js "Instagram"; js "WhatsApp"; js "Line";
   js "Messenger"; js "Twitter"].

Module LegacyDownload.

(** [navigator.userAgent] and [navigator.vendor]; [window.opera] is undefined
    or an object without [includes]. *)
Record Navigator : Type := mkNavigator {
  userAgent : jsstring;
  vendor : jsstring
}.

(** [None]: the call of [includes] throws a TypeError. *)
Definition isInAppBrowser (navigator : Navigator) : option bool :=
  let userAgent :=
    if truthy (userAgent navigator) then Some (userAgent navigator)
    else if truthy (vendor navigator) then Some (vendor navigator)
    else None in
  match userAgent with
  | None => None
  | Some userAgent =>
      Some
        (includes userAgent (js "FBAN")
         || includes userAgent (js "FBAV")
         || includes userAgent (js "Instagram")
         || includes userAgent (js "WhatsApp")
         || includes userAgent (js "Line")
         || includes userAgent (js "Messenger")
         || includes userAgent (js "MicroMessenger")
         || includes userAgent (js "Twitter")
         || (includes userAgent (js "Mobile")
             && includes userAgent (js "Safari")
             && negb (includes userAgent (js "Chrome"))))
  end.

Definition popup_instructions : jsstring :=
  js "To download your QR code:" ++ [10; 10]
  ++ js "1. Long press on the QR code image" ++ [10]
  ++ js "2. Select " ++ [34] ++ js "Save Image" ++ [34] ++ [10]
  ++ js "or" ++ [10]
  ++ js "1. Tap the menu (" ++ [8942] ++ js ") in the top right" ++ [10]
  ++ js "2. Select " ++ [34] ++ js "Open in browser" ++ [34] ++ [10]
  ++ js "3. Then click Download QR Code".

Definition long_press_instructions : jsstring :=
  js "Please long press on the QR code image and select " ++ [34]
  ++ js "Save Image" ++ [34] ++ js " to download.".

(** [downloadQRCode] of the earlier revision; [popups] tells whether
    [window.open] returns a window.  Of the calls in the [try] block only
    [isInAppBrowser] is taken to throw. *)
Definition downloadQRCode (navigator : Navigator) (popups : bool)
  (st : State) : list ui_effect :=
  if truthy (qrCodeUrl st) then
    let download :=
      firstName (formData st) ++ js "_" ++ lastName (formData st)
      ++ js "_QRCode.png" in
    match isInAppBrowser navigator with
    | Some true =>
        if popups then [WindowOpen (qrCodeUrl st) (js "_blank")]
        else [WindowOpen (qrCodeUrl st) (js "_blank");
              ShowAlert popup_instructions]
    | Some false => [LinkClick download (qrCodeUrl st)]
    | None =>
        if popups then [WindowOpen (qrCodeUrl st) (js "_blank")]
        else [WindowOpen (qrCodeUrl st) (js "_blank");
              ShowAlert long_press_instructions]
    end
  else [].

End LegacyDownload.

(** ** The submit handler in its two halves

    [handleSubmit] runs up to its [await] when the form is submitted and goes
    on a second later.  The second half still reads [formData] of the render
    the handler was created in, the snapshot, and its setters act on the
    state that is current by then. *)

(** Up to the [await]: the two checks and [setIsProcessing(true)]; the form
    the second half will use, when the checks pass. *)
Definition submitStart (st : State) : State * option FormData * list effect :=
  let fd := formData st in
  if negb (truthy (studentNumber fd)) || negb (truthy (lastName fd))
     || negb (truthy (firstName fd)) || negb (truthy (program fd))
     || negb (truthy (yearLevel fd)) then
    (st, None, [Alert (js "Please fill in all fields")])
  else if hasErrors (fieldErrors st) then
    (st, None, [Alert (js "Please fix the errors before submitting")])
  else
    ({| formData := formData st; qrCodeUrl := qrCodeUrl st;
        isRegistered := isRegistered st; showModal := showModal st;
        isProcessing := true; fieldErrors := fieldErrors st;
        registrationData := registrationData st |},
     Some fd, []).

(** From the timeout on: the [try] block and [finally]. *)
Definition submitFinish (env : Browser) (snapshot : FormData) (st : State)
  (localStorage : gmap (list N) (list N))
  : State * gmap (list N) (list N) * list effect :=
  let identity := generateStaticIdentity env snapshot in
  let key := js "student_" ++ studentNumber snapshot in
  let value := Identity.stringify identity in
  match setItem env localStorage key value with
  | Some localStorage' =>
      ({| formData := formData st; qrCodeUrl := qrCodeUrl st;
          isRegistered := true; showModal := true; isProcessing := false;
          fieldErrors := fieldErrors st;
          registrationData := Some identity |},
       localStorage', [SetItem key value])
  | None =>
      ({| formData := formData st; qrCodeUrl := qrCodeUrl st;
          isRegistered := isRegistered st; showModal := showModal st;
          isProcessing := false; fieldErrors := fieldErrors st;
          registrationData := registrationData st |},
       localStorage,
       [SetItem key value; Alert (js "Registration failed. Please try again.")])
  end.

(** ** The page as the user drives it

    What the rendered page lets happen.  The form is there while the
    component is not registered; its inputs stay editable while a submission
    is processed; its two selects offer the empty option and the listed ones,
    the year levels being those of the program of the form; the submit button
    follows its [disabled] expression.  A submission ends a second after it
    began.  The modal has its close button while shown; the reset button
    belongs to the registered view.  A drawing of the code may end at any
    moment. *)
Inductive ui_event : Type :=
| Change (name value : jsstring)
| SubmitStart
| SubmitFinish (env : Browser)
| QRFinished (dataUrl : jsstring)
| CloseModal
| Reset.

(** The component, the local storage, and the snapshots of the submissions
    under way, oldest first. *)
Record Page : Type := mkPage {
  component : State;
  stored : gmap (list N) (list N);
  processing : list FormData
}.

(** The names of the inputs of the form. *)
Definition field_names : list jsstring :=
  [js "studentNumber"; js "lastName"; js "firstName"; js "program";
   js "yearLevel"].

(** [value] is the value of one of the options of a select. *)
Definition has_option (options : list jsstring) (value : jsstring) : bool :=
  existsb (str_eq value) options.

Definition offered (p : Page) (e : ui_event) : bool :=
  let st := component p in
  match e with
  | Change name value =>
      negb (isRegistered st)
      && (str_eq name (js "studentNumber")
          || str_eq name (js "firstName")
          || str_eq name (js "lastName")
          || str_eq name (js "program")
             && has_option (js "" :: programs) value
          || str_eq name (js "yearLevel")
             && has_option (js "" :: getYearLevels (program (formData st)))
                  value)
  | SubmitStart => negb (isRegistered st) && negb (submitDisabled st)
  | SubmitFinish _ => match processing p with [] => false | _ :: _ => true end
  | QRFinished _ => true
  | CloseModal => showModal st
  | Reset => isRegistered st
  end.

(** One event on the page; [None] when the page does not offer it. *)
Definition fire (e : ui_event) (p : Page) : option Page :=
  if offered p e then
    Some
      match e with
      | Change name value =>
          mkPage (handleInputChange name value (component p)) (stored p)
            (processing p)
      | SubmitStart =>
          let '(st', snapshot, _) := submitStart (component p) in
          mkPage st' (stored p)
            (processing p
             ++ match snapshot with Some fd => [fd] | None => [] end)
      | SubmitFinish env =>
          match processing p with
          | snapshot :: rest =>
              let '(st', localStorage', _) :=
                submitFinish env snapshot (component p) (stored p) in
              mkPage st' localStorage' rest
          | [] => p
          end
      | QRFinished dataUrl =>
          mkPage (setQrCodeUrl dataUrl (component p)) (stored p)
            (processing p)
      | CloseModal =>
          mkPage (closeModal (component p)) (stored p) (processing p)
      | Reset => mkPage (resetForm (component p)) (stored p) (processing p)
      end
  else None.

Fixpoint session (events : list ui_event) (p : Page) : option Page :=
  match events with
  | [] => Some p
  | e :: events' =>
      match fire e p with
      | Some p' => session events' p'
      | None => None
      end
  end.

(** The page a visit starts on. *)
Definition initialPage (localStorage : gmap (list N) (list N)) : Page :=
  mkPage initialState localStorage [].

(** The user fills the five fields, the program before the year level. *)
Definition fill_in (fd : FormData) : list ui_event :=
  [Change (js "studentNumber") (studentNumber fd);
   Change (js "firstName") (firstName fd);
   Change (js "lastName") (lastName fd);
   Change (js "program") (program fd);
   Change (js "yearLevel") (yearLevel fd)].

(** A record as the validated form produces it. *)
Definition valid_record (r : Identity.t) : Prop :=
  canonical_format (Identity.studentNumber r)
  /\ (exists first last : jsstring,
        Identity.fullName r = first ++ js " " ++ last
        /\ first <> js "" /\ only_letters_and_whitespace first = true
        /\ last <> js "" /\ only_letters_and_whitespace last = true)
  /\ In (Identity.program r) programs
  /\ In (Identity.yearLevel r) (getYearLevels (Identity.program r))
  /\ exists ms : N,
       Identity.id r
       = js "CSCB-" ++ Identity.studentNumber r ++ js "-" ++ number_to_string ms.

(** What every page of a session satisfies; [ls0] is the storage the session
    started with. *)
Definition page_invariant (ls0 : gmap (list N) (list N)) (p : Page) : Prop :=
  let st := component p in
  let fd := formData st in
  In (program fd) (js "" :: programs)
  /\ In (yearLevel fd) (js "" :: getYearLevels (program fd))
  /\ (forall name error, fieldErrors st !! name = Some error ->
        exists v, get_field fd name = Some v /\ error = validateField name v)
  /\ (forall name v, get_field fd name = Some v ->
        v = js "" \/ fieldErrors st !! name = Some (validateField name v))
  /\ match processing p with
     | [] => isProcessing st = false
     | [snapshot] =>
         isProcessing st = true /\ isRegistered st = false
         /\ forall env, valid_record (generateStaticIdentity env snapshot)
     | _ :: _ :: _ => False
     end
  /\ (if isRegistered st then
        exists r,
          registrationData st = Some r /\ valid_record r
          /\ stored p !! (js "student_" ++ Identity.studentNumber r)
             = Some (Identity.stringify r)
      else registrationData st = None /\ showModal st = false)
  /\ (forall key value, stored p !! key = Some value ->
        ls0 !! key = Some value
        \/ exists r, value = Identity.stringify r
                     /\ key = js "student_" ++ Identity.studentNumber r
                     /\ valid_record r).

(** A session: Ana Cruz registers, closes the modal, the code is drawn. *)
Definition ana_session : list ui_event :=
  fill_in ana_form
  ++ [SubmitStart; SubmitFinish a_browser; CloseModal;
      QRFinished (js "data:image/png;base64,iVBORw0KGgo=")].

(** Then the form is reset for the next student, who starts typing. *)
Definition next_student_session : list ui_event :=
  ana_session
  ++ [Reset;
      Change (js "program")
        (js "Bachelor of Science in Information Technology");
      Change (js "yearLevel") (js "4th Year");
      Change (js "firstName") (js "B3n")].


(** The pages the sessions end on. *)
Definition ana_page : Page :=
  mkPage
    (setQrCodeUrl (js "data:image/png;base64,iVBORw0KGgo=")
       (closeModal (fst (fst (handleSubmit a_browser ana_state ∅)))))
    (snd (fst (handleSubmit a_browser ana_state ∅))) [].

Definition next_student_page : Page :=
  mkPage
    (handleInputChange (js "firstName") (js "B3n")
       (handleInputChange (js "yearLevel") (js "4th Year")
          (handleInputChange (js "program")
             (js "Bachelor of Science in Information Technology")
             (resetForm (component ana_page)))))
    (stored ana_page) [].


(** A canvas whose drawings succeed. *)
Definition a_canvas : Canvas :=
  {| mounted := true;
     draw := fun text => Some (js "data:image/png;base64," ++ text) |}.

(** Facebook's in-app browser on a phone. *)
Definition facebook_navigator : LegacyDownload.Navigator :=
  {| LegacyDownload.userAgent :=
       js "Mozilla/5.0 (Linux; Android 13) AppleWebKit/537.36 Chrome/120.0 Mobile Safari/537.36 [FBAN/EMA;FBAV/400.0]";
     LegacyDownload.vendor := js "Google Inc." |}.

(** * Properties *)

(** ** Regular expressions: [test] decides the language *)
Module RegExpFacts.
Import RegExp.

Lemma matches_nil_nullable r s : matches r s -> s = [] -> nullable r = true.
Proof.
  induction 1 as [| | r1 r2 s1 s2 _ IH1 _ IH2 | |]; intros E; simpl; try easy.
  apply app_eq_nil in E as [-> ->]. now rewrite IH1, IH2.
Qed.

Lemma nullable_matches r : nullable r = true <-> matches r [].
Proof.
  split; [| intros H; now apply (matches_nil_nullable r [])].
  induction r as [| | p | r1 IH1 r2 IH2 | r1 _]; simpl; intros H; try easy.
  - constructor.
  - apply andb_true_iff in H as [H1 H2].
    change (@nil N) with (@nil N ++ @nil N). constructor; auto.
  - constructor.
Qed.

Lemma matches_deriv r w :
  matches r w -> forall c s, w = c :: s ->
  exists d, In d (deriv c r) /\ matches d s.
Proof.
  induction 1 as [| p c0 Hp | r1 r2 s1 s2 H1 IH1 H2 IH2 | r
                 | r s1 s2 H1 IH1 H2 IH2]; intros c s E; try easy.
  - injection E as -> <-. exists Eps. simpl. rewrite Hp. split; [now left | constructor].
  - destruct s1 as [| c1 s1']; simpl in E.
    + destruct (IH2 c s E) as (d & Hd & Hm). exists d. split; [| exact Hm].
      simpl. apply in_or_app. right.
      now rewrite (matches_nil_nullable r1 [] H1 eq_refl).
    + injection E as -> <-.
      destruct (IH1 c s1' eq_refl) as (d & Hd & Hm).
      exists (Cat d r2). split; [| now constructor].
      simpl. apply in_or_app. left. now apply (in_map (fun d => Cat d r2)).
  - destruct s1 as [| c1 s1']; simpl in E.
    + now apply IH2.
    + injection E as -> <-.
      destruct (IH1 c s1' eq_refl) as (d & Hd & Hm).
      exists (Cat d (Star r)). split; [| now constructor].
      simpl. now apply (in_map (fun d => Cat d (Star r))).
Qed.

Lemma deriv_matches c r :
  forall d s, In d (deriv c r) -> matches d s -> matches r (c :: s).
Proof.
  induction r as [| | p | r1 IH1 r2 IH2 | r1 IH1]; simpl; intros d s Hd Hm;
    try easy.
  - destruct (p c) eqn:Hp; [| easy]. destruct Hd as [<- | []].
    inversion Hm; subst. now constructor.
  - apply in_app_or in Hd as [Hd | Hd].
    + apply in_map_iff in Hd as (d1 & <- & Hd1).
      inversion Hm as [| | ? ? a b Ha Hb | |]; subst.
      change (c :: a ++ b) with ((c :: a) ++ b). constructor; eauto.
    + destruct (nullable r1) eqn:Hn; [| easy].
      change (c :: s) with ([] ++ c :: s). constructor; eauto.
      now apply nullable_matches.
  - apply in_map_iff in Hd as (d1 & <- & Hd1).
    inversion Hm as [| | ? ? a b Ha Hb | |]; subst.
    change (c :: a ++ b) with ((c :: a) ++ b). constructor; eauto.
Qed.

Lemma run_matches s :
  forall rs, run rs s = true <-> exists r, In r rs /\ matches r s.
Proof.
  induction s as [| c s IH]; intros rs; simpl.
  - rewrite existsb_exists. split; intros (r & Hr & H); exists r; split; auto;
      now apply nullable_matches.
  - rewrite IH. split.
    + intros (d & Hd & Hm). apply in_flat_map in Hd as (r & Hr & Hd).
      exists r. split; [exact Hr |]. eapply deriv_matches; eauto.
    + intros (r & Hr & Hm).
      destruct (matches_deriv r _ Hm c s eq_refl) as (d & Hd & Hm').
      exists d. split; [| exact Hm']. apply in_flat_map. eauto.
Qed.

Lemma test_matches r s : test r s = true <-> matches r s.
Proof.
  unfold test. rewrite run_matches. split.
  - now intros (r' & [<- | []] & H).
  - intros H. exists r. split; [now left | exact H].
Qed.

Lemma matches_Cat r1 r2 s :
  matches (Cat r1 r2) s <->
  exists s1 s2, s = s1 ++ s2 /\ matches r1 s1 /\ matches r2 s2.
Proof.
  split.
  - inversion 1; subst; eauto.
  - intros (s1 & s2 & -> & H1 & H2). now constructor.
Qed.

Lemma matches_Cls p s : matches (Cls p) s <-> exists c, s = [c] /\ p c = true.
Proof.
  split.
  - inversion 1; subst; eauto.
  - intros (c & -> & H). now constructor.
Qed.

Lemma matches_Eps s : matches Eps s <-> s = [].
Proof. split; [now inversion 1 | intros ->; constructor]. Qed.

Lemma matches_Star_Cls p s :
  matches (Star (Cls p)) s <-> forallb p s = true.
Proof.
  split.
  - intros H. remember (Star (Cls p)) as r eqn:E.
    induction H as [| | | | r s1 s2 H1 _ H2 IH2]; try easy.
    injection E as ->. apply matches_Cls in H1 as (c & -> & Hc).
    simpl. rewrite Hc. now apply IH2.
  - induction s as [| c s IH]; simpl; intros H; [constructor |].
    apply andb_true_iff in H as [Hc Hs].
    change (c :: s) with ([c] ++ s). constructor; [now constructor | auto].
Qed.

Lemma matches_Plus_Cls p s :
  matches (Plus (Cls p)) s <-> s <> [] /\ forallb p s = true.
Proof.
  unfold Plus. rewrite matches_Cat. split.
  - intros (s1 & s2 & -> & H1 & H2).
    apply matches_Cls in H1 as (c & -> & Hc). apply matches_Star_Cls in H2.
    simpl. now rewrite Hc, H2.
  - intros [Hne H]. destruct s as [| c s]; [easy |]. simpl in H.
    apply andb_true_iff in H as [Hc Hs].
    exists [c], s. repeat split; [now constructor | now apply matches_Star_Cls].
Qed.

Lemma matches_Rep_Cls p n :
  forall s, matches (Rep n (Cls p)) s <->
            length s = n /\ forallb p s = true.
Proof.
  induction n as [| n IH]; intros s; simpl.
  - rewrite matches_Eps. split; [now intros -> |].
    intros [H _]. now destruct s.
  - rewrite matches_Cat. split.
    + intros (s1 & s2 & -> & H1 & H2).
      apply matches_Cls in H1 as (c & -> & Hc). apply IH in H2 as [Hl Hs].
      simpl. now rewrite Hl, Hc, Hs.
    + intros [Hl H]. destruct s as [| c s]; [easy |]. simpl in *.
      apply andb_true_iff in H as [Hc Hs]. injection Hl as Hl.
      exists [c], s. repeat split; [now constructor | now apply IH].
Qed.

Lemma matches_Lits l : forall s, matches (Lits l) s <-> s = js l.
Proof.
  induction l as [| a l IH]; intros s; simpl.
  - apply matches_Eps.
  - rewrite matches_Cat. split.
    + intros (s1 & s2 & -> & H1 & H2). apply IH in H2 as ->.
      apply matches_Cls in H1 as (c & -> & Hc). apply N.eqb_eq in Hc as <-.
      reflexivity.
    + intros ->. exists [cu a], (js l). repeat split.
      * constructor. apply N.eqb_refl.
      * now apply IH.
Qed.

(** [test] of a class under [+]: a non-empty string of members of the class. *)
Lemma test_Plus_Cls p s :
  test (Plus (Cls p)) s = truthy s && forallb p s.
Proof.
  apply eq_true_iff_eq. rewrite test_matches, matches_Plus_Cls, andb_true_iff.
  destruct s; simpl; intuition congruence.
Qed.

End RegExpFacts.

(** ** Serialization loses nothing *)
Module JSONFacts.
Import JSON.

Lemma hex_value_digit n : n < 16 -> hex_value (hex_digit n) = Some n.
Proof.
  intros H. unfold hex_digit, hex_value.
  destruct (n <? 10) eqn:E.
  - apply N.ltb_lt in E.
    replace ((48 <=? 48 + n) && (48 + n <=? 57)) with true
      by (symmetry; apply andb_true_iff; split; apply N.leb_le; lia).
    f_equal. lia.
  - apply N.ltb_ge in E.
    replace ((48 <=? 87 + n) && (87 + n <=? 57)) with false
      by (symmetry; apply andb_false_iff; right; apply N.leb_gt; lia).
    replace ((97 <=? 87 + n) && (87 + n <=? 102)) with true
      by (symmetry; apply andb_true_iff; split; apply N.leb_le; lia).
    f_equal. lia.
Qed.

Lemma hex_digits_value c :
  c < 65536 ->
  4096 * (c / 4096 mod 16) + 256 * (c / 256 mod 16) + 16 * (c / 16 mod 16)
  + c mod 16 = c.
Proof.
  intros H.
  change 4096 with (16 * (16 * 16)) at 2. change 256 with (16 * 16) at 2.
  rewrite <- !N.Div0.div_div.
  assert (Hd : c / 16 / 16 / 16 < 16).
  { rewrite !N.Div0.div_div. apply N.Div0.div_lt_upper_bound. exact H. }
  rewrite (N.mod_small _ _ Hd).
  pose proof (N.Div0.div_mod c 16) as E1.
  pose proof (N.Div0.div_mod (c / 16) 16) as E2.
  pose proof (N.Div0.div_mod (c / 16 / 16) 16) as E3.
  lia.
Qed.

Lemma read_unicode_escape c s :
  c < 65536 -> read_chars (unicode_escape c ++ s) = push c (read_chars s).
Proof.
  intros H. unfold unicode_escape. cbn [app read_chars].
  change (92 =? 34) with false. change (92 =? 92) with true.
  change (117 =? 117) with true. cbn iota.
  rewrite !hex_value_digit by (apply N.mod_lt; discriminate).
  now rewrite hex_digits_value.
Qed.

Lemma read_verbatim c s :
  c <> 34 -> c <> 92 -> read_chars (c :: s) = push c (read_chars s).
Proof.
  intros H1 H2. cbn [read_chars].
  apply N.eqb_neq in H1, H2. now rewrite H1, H2.
Qed.

Lemma read_quote_unit c s :
  is_leading_surrogate c = false ->
  read_chars (quote_unit c ++ s) = push c (read_chars s).
Proof.
  intros Hl. unfold quote_unit.
  destruct (c =? 8) eqn:E8; [apply N.eqb_eq in E8 as ->; reflexivity |].
  destruct (c =? 9) eqn:E9; [apply N.eqb_eq in E9 as ->; reflexivity |].
  destruct (c =? 10) eqn:E10; [apply N.eqb_eq in E10 as ->; reflexivity |].
  destruct (c =? 12) eqn:E12; [apply N.eqb_eq in E12 as ->; reflexivity |].
  destruct (c =? 13) eqn:E13; [apply N.eqb_eq in E13 as ->; reflexivity |].
  destruct (c =? 34) eqn:E34; [apply N.eqb_eq in E34 as ->; reflexivity |].
  destruct (c =? 92) eqn:E92; [apply N.eqb_eq in E92 as ->; reflexivity |].
  rewrite Hl, orb_false_r.
  destruct ((c <? 32) || is_trailing_surrogate c) eqn:E.
  - apply read_unicode_escape.
    apply orb_true_iff in E as [E | E].
    + apply N.ltb_lt in E. lia.
    + unfold is_trailing_surrogate in E.
      apply andb_true_iff in E as [_ E]. apply N.leb_le in E. lia.
  - apply N.eqb_neq in E34, E92. now apply read_verbatim.
Qed.

Lemma surrogate_verbatim c :
  is_leading_surrogate c = true \/ is_trailing_surrogate c = true ->
  c <> 34 /\ c <> 92 /\ c < 65536.
Proof.
  unfold is_leading_surrogate, is_trailing_surrogate.
  rewrite !andb_true_iff, !N.leb_le. lia.
Qed.

Lemma read_quote_chars n :
  forall v rest, (length v <= n)%nat ->
  read_chars (quote_chars v ++ 34 :: rest) = Some (v, rest).
Proof.
  induction n as [| n IH]; intros v rest Hn.
  - destruct v; [reflexivity | simpl in Hn; lia].
  - destruct v as [| c v']; [reflexivity |]. simpl in Hn.
    cbn [quote_chars].
    destruct (is_leading_surrogate c) eqn:Hl.
    + destruct (surrogate_verbatim c (or_introl Hl)) as (H34 & H92 & Hlt).
      destruct v' as [| d v''].
      * rewrite read_unicode_escape by exact Hlt. reflexivity.
      * destruct (is_trailing_surrogate d) eqn:Ht.
        -- destruct (surrogate_verbatim d (or_intror Ht)) as (D34 & D92 & _).
           cbn [app]. rewrite read_verbatim, read_verbatim by assumption.
           rewrite IH by (simpl in Hn; lia). reflexivity.
        -- rewrite <- app_assoc, read_unicode_escape by exact Hlt.
           rewrite IH by lia. reflexivity.
    + rewrite <- app_assoc, read_quote_unit by exact Hl.
      rewrite IH by lia. reflexivity.
Qed.

Lemma strip_app prefix s : strip prefix (prefix ++ s) = Some s.
Proof.
  induction prefix as [| p prefix IH]; [reflexivity |].
  cbn [app strip]. now rewrite N.eqb_refl.
Qed.

Lemma read_member_quote key v rest :
  read_member key (quote key ++ [58] ++ quote v ++ rest) = Some (v, rest).
Proof.
  unfold read_member.
  replace (quote key ++ [58] ++ quote v ++ rest)
    with ((quote key ++ [58; 34]) ++ quote_chars v ++ 34 :: rest).
  - rewrite strip_app. now apply (read_quote_chars (length v)).
  - unfold quote. rewrite <- !app_assoc. reflexivity.
Qed.

End JSONFacts.

Lemma stringify_shape (r : Identity.t) :
  Identity.stringify r
  = [123] ++ JSON.quote (js "studentNumber") ++ [58]
    ++ JSON.quote (Identity.studentNumber r) ++ [44]
    ++ JSON.quote (js "fullName") ++ [58]
    ++ JSON.quote (Identity.fullName r) ++ [44]
    ++ JSON.quote (js "program") ++ [58]
    ++ JSON.quote (Identity.program r) ++ [44]
    ++ JSON.quote (js "yearLevel") ++ [58]
    ++ JSON.quote (Identity.yearLevel r) ++ [44]
    ++ JSON.quote (js "registrationDate") ++ [58]
    ++ JSON.quote (Identity.registrationDate r) ++ [44]
    ++ JSON.quote (js "id") ++ [58]
    ++ JSON.quote (Identity.id r) ++ [125].
Proof.
  unfold Identity.stringify, JSON.stringify_object. cbn [JSON.members].
  now rewrite <- !app_assoc.
Qed.

(** Reading a serialized record gives the record back, so that what a
    storage slot holds determines the record. *)
Lemma parse_stringify (r : Identity.t) :
  Identity.parse (Identity.stringify r) = Some r.
Proof.
  rewrite stringify_shape. unfold Identity.parse.
  rewrite JSONFacts.strip_app. cbn [mbind option_bind].
  do 5 (rewrite JSONFacts.read_member_quote; cbn [mbind option_bind];
        rewrite JSONFacts.strip_app; cbn [mbind option_bind]).
  rewrite JSONFacts.read_member_quote. now destruct r.
Qed.

Lemma stringify_injective (r1 r2 : Identity.t) :
  Identity.stringify r1 = Identity.stringify r2 -> r1 = r2.
Proof.
  intros H. apply (f_equal Identity.parse) in H.
  rewrite !parse_stringify in H. now injection H.
Qed.

(** ** Validation *)

Lemma truthy_nonempty (s : list N) : truthy s = true <-> s <> [].
Proof. destruct s; simpl; split; congruence. Qed.

Lemma truthy_false (s : list N) : truthy s = false <-> s = [].
Proof. destruct s; simpl; split; congruence. Qed.

Lemma str_eq_true (a b : list N) : str_eq a b = true <-> a = b.
Proof. unfold str_eq. apply bool_decide_eq_true. Qed.

Lemma str_eq_false (a b : list N) : str_eq a b = false <-> a <> b.
Proof. unfold str_eq. apply bool_decide_eq_false. Qed.

Lemma class_s_whitespace c : RegExp.class_s c = is_whitespace c.
Proof.
  apply eq_true_iff_eq. unfold is_whitespace.
  rewrite bool_decide_eq_true, list_elem_of_In.
  unfold RegExp.class_s, whitespace_code_points. simpl In.
  rewrite !orb_true_iff, !andb_true_iff, !N.leb_le, !N.eqb_eq. lia.
Qed.

Lemma class_d_digit c : RegExp.class_d c = is_digit c.
Proof. reflexivity. Qed.

Lemma name_class c :
  RegExp.union (RegExp.range "a" "z")
    (RegExp.union (RegExp.range "A" "Z") RegExp.class_s) c
  = is_ascii_letter c || is_whitespace c.
Proof.
  unfold RegExp.union. rewrite class_s_whitespace, orb_assoc. f_equal.
  unfold RegExp.range, is_ascii_letter. apply orb_comm.
Qed.

(** [namePattern] accepts exactly the non-empty strings of letters and white
    space. *)
Lemma test_namePattern v :
  RegExp.test namePattern v = truthy v && only_letters_and_whitespace v.
Proof.
  unfold namePattern. rewrite RegExpFacts.test_Plus_Cls. f_equal.
  unfold only_letters_and_whitespace.
  induction v as [| c v IH]; simpl; [reflexivity |].
  now rewrite IH, name_class.
Qed.

(** [studentIdPattern] accepts exactly the strings of the strict format. *)
Lemma test_studentIdPattern v :
  RegExp.test studentIdPattern v = true <-> canonical_format v.
Proof.
  rewrite RegExpFacts.test_matches. unfold studentIdPattern, canonical_format.
  rewrite RegExpFacts.matches_Cat. split.
  - intros (year & s2 & -> & Hy & H2).
    apply RegExpFacts.matches_Rep_Cls in Hy as [Hly Hdy].
    apply RegExpFacts.matches_Cat in H2 as (h & s3 & -> & Hh & H3).
    apply RegExpFacts.matches_Cls in Hh as (c & -> & Hc).
    apply N.eqb_eq in Hc as <-.
    apply RegExpFacts.matches_Cat in H3 as (seq & s4 & -> & Hs & H4).
    apply RegExpFacts.matches_Rep_Cls in Hs as [Hls Hds].
    apply RegExpFacts.matches_Lits in H4 as ->.
    exists year, seq. repeat split; assumption.
  - intros (year & seq & Hly & Hdy & Hls & Hds & ->).
    exists year, (js "-" ++ seq ++ js "-TG-0"). split; [reflexivity |].
    split; [now apply RegExpFacts.matches_Rep_Cls |].
    apply RegExpFacts.matches_Cat. exists (js "-"), (seq ++ js "-TG-0").
    split; [reflexivity |]. split; [now constructor |].
    apply RegExpFacts.matches_Cat. exists seq, (js "-TG-0").
    split; [reflexivity |]. split; [now apply RegExpFacts.matches_Rep_Cls |].
    now apply RegExpFacts.matches_Lits.
Qed.

Lemma validateField_studentNumber_ok v :
  validateField (js "studentNumber") v = js "" <->
  v = js "" \/ RegExp.test studentIdPattern v = true.
Proof.
  unfold validateField.
  assert (E1 : str_eq (js "studentNumber") (js "studentNumber") = true)
    by reflexivity.
  assert (E2 : str_eq (js "studentNumber") (js "lastName") = false)
    by reflexivity.
  assert (E3 : str_eq (js "studentNumber") (js "firstName") = false)
    by reflexivity.
  rewrite E1, E2, E3. cbn [orb andb].
  destruct v as [| c v']; cbn [truthy]; [now split; [left |] |].
  destruct (RegExp.test studentIdPattern (c :: v')); cbn [negb].
  - split; [intros _; now right | reflexivity].
  - split; [discriminate | intros [H | H]; discriminate].
Qed.

Lemma validateField_name_ok name v :
  name = js "firstName" \/ name = js "lastName" ->
  validateField name v = js "" <->
  v = js "" \/ RegExp.test namePattern v = true.
Proof.
  intros Hname. unfold validateField.
  assert (E1 : str_eq name (js "studentNumber") = false)
    by (destruct Hname as [-> | ->]; reflexivity).
  assert (E2 : str_eq name (js "lastName") || str_eq name (js "firstName") = true)
    by (destruct Hname as [-> | ->]; reflexivity).
  rewrite E1, E2. cbn [andb].
  destruct v as [| c v']; cbn [truthy]; [now split; [left |] |].
  destruct (RegExp.test namePattern (c :: v')); cbn [negb].
  - split; [intros _; now right | reflexivity].
  - split; [discriminate | intros [H | H]; discriminate].
Qed.

Lemma validateField_empty name : validateField name (js "") = js "".
Proof.
  unfold validateField. cbn [js truthy]. now rewrite !andb_false_r.
Qed.

(** Fields other than the student number and the two names carry no rule. *)
Lemma validateField_unrestricted name v :
  name <> js "studentNumber" -> name <> js "lastName" ->
  name <> js "firstName" -> validateField name v = js "".
Proof.
  intros H1 H2 H3. unfold validateField.
  apply str_eq_false in H1, H2, H3. now rewrite H1, H2, H3.
Qed.

(** The earlier rule: letters, digits and hyphens. *)
Lemma legacy_validateField_studentNumber_ok v :
  Legacy.validateField (js "studentNumber") v = js "" <->
  forallb (fun c => is_ascii_letter c || is_digit c || (c =? 45)) v = true.
Proof.
  unfold Legacy.validateField.
  assert (E1 : str_eq (js "studentNumber") (js "studentNumber") = true)
    by reflexivity.
  assert (E2 : str_eq (js "studentNumber") (js "lastName") = false)
    by reflexivity.
  assert (E3 : str_eq (js "studentNumber") (js "firstName") = false)
    by reflexivity.
  rewrite E1, E2, E3. cbn [orb andb].
  unfold Legacy.studentNumberPattern. rewrite RegExpFacts.test_Plus_Cls.
  assert (E : forall s,
    forallb (RegExp.union (RegExp.range "a" "z")
               (RegExp.union (RegExp.range "A" "Z")
                  (RegExp.union (RegExp.range "0" "9") (N.eqb (cu "-"))))) s
    = forallb (fun c => is_ascii_letter c || is_digit c || (c =? 45)) s).
  { induction s as [| c s IH]; cbn [forallb]; [reflexivity |].
    rewrite IH. f_equal.
    unfold RegExp.union, RegExp.range, is_ascii_letter, is_digit.
    change (cu "a") with 97. change (cu "z") with 122.
    change (cu "A") with 65. change (cu "Z") with 90.
    change (cu "0") with 48. change (cu "9") with 57.
    change (cu "-") with 45. rewrite (N.eqb_sym 45 c).
    destruct (97 <=? c), (c <=? 122), (65 <=? c), (c <=? 90), (48 <=? c),
      (c <=? 57), (c =? 45); reflexivity. }
  rewrite E. destruct v as [| c v']; cbn [truthy andb]; [easy |].
  destruct (forallb _ (c :: v')); cbn [negb]; split; easy.
Qed.

(** Every student number of the strict format also passes the earlier rule. *)
Lemma canonical_passes_legacy v :
  canonical_format v -> Legacy.validateField (js "studentNumber") v = js "".
Proof.
  intros (year & seq & _ & Hy & _ & Hs & ->).
  apply legacy_validateField_studentNumber_ok.
  assert (D : forall s, forallb is_digit s = true ->
    forallb (fun c => is_ascii_letter c || is_digit c || (c =? 45)) s = true).
  { induction s as [| c s IH]; simpl; [easy |].
    intros H. apply andb_true_iff in H as [-> H]. rewrite IH by exact H.
    now rewrite orb_true_r. }
  rewrite !forallb_app, (D year Hy), (D seq Hs). reflexivity.
Qed.

(** ** The form state *)

Lemma handleInputChange_fieldErrors name value st :
  fieldErrors (handleInputChange name value st)
  = <[name := validateField name value]> (fieldErrors st).
Proof. reflexivity. Qed.

Lemma handleInputChange_program value st :
  formData (handleInputChange (js "program") value st)
  = {| studentNumber := studentNumber (formData st);
       lastName := lastName (formData st);
       firstName := firstName (formData st);
       program := value;
       yearLevel := js "" |}.
Proof. reflexivity. Qed.

(** A change of any field but the program keeps every other field, the year
    level included. *)
Lemma handleInputChange_formData name value st :
  name <> js "program" ->
  formData (handleInputChange name value st)
  = set_field (formData st) name value.
Proof.
  intros H. unfold handleInputChange. cbn [formData].
  apply str_eq_false in H. now rewrite H.
Qed.

Lemma set_field_firstName fd value :
  set_field fd (js "firstName") value
  = {| studentNumber := studentNumber fd; lastName := lastName fd;
       firstName := value; program := program fd; yearLevel := yearLevel fd |}.
Proof. reflexivity. Qed.

Lemma set_field_lastName fd value :
  set_field fd (js "lastName") value
  = {| studentNumber := studentNumber fd; lastName := value;
       firstName := firstName fd; program := program fd;
       yearLevel := yearLevel fd |}.
Proof. reflexivity. Qed.

(** ** Submission *)

Lemma hasErrors_true (errs : gmap (list N) (list N)) :
  hasErrors errs = true <->
  exists name error, errs !! name = Some error /\ error <> js "".
Proof.
  unfold hasErrors. rewrite existsb_exists. split.
  - intros (e & Hin & He). apply in_map_iff in Hin as ([k e'] & <- & Hin).
    apply list_elem_of_In, elem_of_map_to_list in Hin.
    exists k, e'. split; [exact Hin |].
    apply negb_true_iff, str_eq_false in He. exact He.
  - intros (k & e & Hk & He). exists e. split.
    + apply in_map_iff. exists (k, e). split; [reflexivity |].
      now apply list_elem_of_In, elem_of_map_to_list.
    + now apply negb_true_iff, str_eq_false.
Qed.

Lemma hasErrors_false (errs : gmap (list N) (list N)) :
  hasErrors errs = false <->
  forall name error, errs !! name = Some error -> error = js "".
Proof.
  rewrite <- not_true_iff_false, hasErrors_true. split.
  - intros H k e Hk. destruct (decide (e = js "")) as [| Hne]; [assumption |].
    exfalso. apply H. eauto.
  - intros H (k & e & Hk & He). apply He. eauto.
Qed.

Lemma handleSubmit_incomplete env st ls :
  complete (formData st) = false ->
  handleSubmit env st ls = (st, ls, [Alert (js "Please fill in all fields")]).
Proof.
  unfold complete, handleSubmit. cbv zeta.
  destruct (truthy (studentNumber (formData st))),
    (truthy (lastName (formData st))), (truthy (firstName (formData st))),
    (truthy (program (formData st))), (truthy (yearLevel (formData st)));
    cbn [negb orb andb]; intros H; try reflexivity; discriminate.
Qed.

Lemma handleSubmit_hasErrors env st ls :
  complete (formData st) = true -> hasErrors (fieldErrors st) = true ->
  handleSubmit env st ls
  = (st, ls, [Alert (js "Please fix the errors before submitting")]).
Proof.
  unfold complete, handleSubmit. cbv zeta. intros H He. rewrite He.
  destruct (truthy (studentNumber (formData st))),
    (truthy (lastName (formData st))), (truthy (firstName (formData st))),
    (truthy (program (formData st))), (truthy (yearLevel (formData st)));
    cbn [negb orb andb] in *; try discriminate; reflexivity.
Qed.

(** Past the two checks the handler builds the record and calls
    [localStorage.setItem]. *)
Lemma handleSubmit_passes env st ls :
  complete (formData st) = true -> hasErrors (fieldErrors st) = false ->
  handleSubmit env st ls =
  let identity := generateStaticIdentity env (formData st) in
  let key := js "student_" ++ studentNumber (formData st) in
  let value := Identity.stringify identity in
  if quota_allows env ls key value then
    ({| formData := formData st; qrCodeUrl := qrCodeUrl st;
        isRegistered := true; showModal := true; isProcessing := false;
        fieldErrors := fieldErrors st; registrationData := Some identity |},
     <[key := value]> ls, [SetItem key value])
  else
    ({| formData := formData st; qrCodeUrl := qrCodeUrl st;
        isRegistered := isRegistered st; showModal := showModal st;
        isProcessing := false; fieldErrors := fieldErrors st;
        registrationData := registrationData st |},
     ls,
     [SetItem key value; Alert (js "Registration failed. Please try again.")]).
Proof.
  unfold complete, handleSubmit, setItem. cbv zeta. intros H He. rewrite He.
  destruct (truthy (studentNumber (formData st))),
    (truthy (lastName (formData st))), (truthy (firstName (formData st))),
    (truthy (program (formData st))), (truthy (yearLevel (formData st)));
    cbn [negb orb andb] in *; try discriminate.
  now destruct (quota_allows env ls _ _).
Qed.

Lemma ana_state_formData : formData ana_state = ana_form.
Proof. reflexivity. Qed.

Lemma ana_state_no_errors : hasErrors (fieldErrors ana_state) = false.
Proof. vm_compute. reflexivity. Qed.

(** A run without alert went through the [try] block to its end. *)
Lemma handleSubmit_succeeded env st ls st' ls' effects :
  handleSubmit env st ls = (st', ls', effects) ->
  succeeded effects = true ->
  let record := generateStaticIdentity env (formData st) in
  let key := js "student_" ++ studentNumber (formData st) in
  ls' = <[key := Identity.stringify record]> ls
  /\ effects = [SetItem key (Identity.stringify record)]
  /\ registrationData st' = Some record
  /\ isRegistered st' = true.
Proof.
  intros Hrun Hok. cbv zeta.
  destruct (complete (formData st)) eqn:Hc.
  - destruct (hasErrors (fieldErrors st)) eqn:He.
    + rewrite (handleSubmit_hasErrors env st ls Hc He) in Hrun.
      injection Hrun as _ _ <-. discriminate.
    + rewrite (handleSubmit_passes env st ls Hc He) in Hrun.
      cbv zeta in Hrun.
      destruct (quota_allows env ls _ _).
      * injection Hrun as <- <- <-. now repeat split.
      * injection Hrun as _ _ <-. discriminate.
  - rewrite (handleSubmit_incomplete env st ls Hc) in Hrun.
    injection Hrun as _ _ <-. discriminate.
Qed.

(** ** Progress *)

(** The progress in closed form; the double arithmetic is exact on every
    form. *)
Lemma calculateProgress_closed_form fd :
  calculateProgress fd =
  if truthy (program fd)
  then number_of_nat (20 * (baseFilled fd + Nat.b2n (truthy (yearLevel fd))))
  else number_of_nat (25 * baseFilled fd).
Proof.
  destruct fd as [[| ? ?] [| ? ?] [| ? ?] [| ? ?] [| ? ?]];
    vm_compute; reflexivity.
Qed.


(** * The claims *)

(** C1.  A submission with an empty field among [studentNumber], [lastName],
    [firstName], [program], [yearLevel], or with a non-empty message in some
    entry of [fieldErrors], is blocked: the handler only alerts; it builds no
    identity record, calls [localStorage.setItem] not at all, and leaves the
    component state and the storage as they were. *)
Theorem submit_blocked (env : Browser) (st : State)
  (localStorage : gmap (list N) (list N)) :
  studentNumber (formData st) = js "" \/ lastName (formData st) = js "" \/
  firstName (formData st) = js "" \/ program (formData st) = js "" \/
  yearLevel (formData st) = js "" \/
  (exists name error, fieldErrors st !! name = Some error /\ error <> js "") ->
  handleSubmit env st localStorage
    = (st, localStorage, [Alert (js "Please fill in all fields")])
  \/ handleSubmit env st localStorage
    = (st, localStorage, [Alert (js "Please fix the errors before submitting")]).
Proof.
  intros H. destruct (complete (formData st)) eqn:Hc.
  - right. apply handleSubmit_hasErrors; [exact Hc |]. apply hasErrors_true.
    unfold complete in Hc. rewrite !andb_true_iff, !truthy_nonempty in Hc.
    destruct H as [H | [H | [H | [H | [H | H]]]]]; tauto.
  - left. now apply handleSubmit_incomplete.
Qed.

Lemma submit_blocked_witness :
  handleSubmit a_browser program_rechosen_state ∅
    = (program_rechosen_state, ∅, [Alert (js "Please fill in all fields")])
  \/ handleSubmit a_browser program_rechosen_state ∅
    = (program_rechosen_state, ∅,
       [Alert (js "Please fix the errors before submitting")]).
Proof.
  apply submit_blocked. right. right. right. right. left. reflexivity.
Defined.

(** C2.  On a well-formed form (a student number of the strict format,
    non-empty letter-only names, a program of the list and a year level of
    that program) the record built carries as [fullName] the first name, one
    space and the last name, with both names as they were typed. *)
Theorem identity_fullName (env : Browser) (fd : FormData) :
  well_formed fd ->
  Identity.fullName (generateStaticIdentity env fd)
  = firstName fd ++ js " " ++ lastName fd.
Proof. intros _. reflexivity. Qed.

Lemma ana_form_well_formed : well_formed ana_form.
Proof.
  unfold well_formed. split.
  - exists (js "2023"), (js "00011"). repeat split.
  - repeat split; try discriminate.
    + right. now left.
    + right. now left.
Qed.

Lemma identity_fullName_witness :
  well_formed ana_form /\
  Identity.fullName (generateStaticIdentity a_browser ana_form)
  = firstName ana_form ++ js " " ++ lastName ana_form.
Proof.
  split; [exact ana_form_well_formed |].
  apply identity_fullName. exact ana_form_well_formed.
Defined.

(** C6.  A change of the program leaves the year level empty, whatever the
    form held before and whatever the new program is. *)
Theorem program_change_resets_yearLevel (st : State) (value : list N) :
  yearLevel (formData (handleInputChange (js "program") value st)) = js "".
Proof. rewrite handleInputChange_program. reflexivity. Qed.

(** C8.  A change of the field [name] replaces the error entry of [name] by
    the error computed for the new value and keeps the entry of every other
    field. *)
Theorem change_touches_one_error (st : State) (name value : list N) :
  fieldErrors (handleInputChange name value st) !! name
    = Some (validateField name value)
  /\ forall other, other <> name ->
       fieldErrors (handleInputChange name value st) !! other
       = fieldErrors st !! other.
Proof.
  rewrite handleInputChange_fieldErrors. split.
  - apply lookup_insert_eq.
  - intros other H. now apply lookup_insert_ne.
Qed.

Lemma change_touches_one_error_witness :
  fieldErrors (handleInputChange (js "firstName") (js "An4") ana_state)
    !! js "studentNumber"
  = fieldErrors ana_state !! js "studentNumber".
Proof.
  apply (proj2 (change_touches_one_error ana_state (js "firstName") (js "An4"))).
  discriminate.
Defined.

(** C9.  The two student-number rules differ: the non-empty input [abc]
    passes the letters-digits-hyphens rule of the earlier revision and fails
    the strict rule, so the two [validateField] are different functions. *)
Theorem student_number_rules_differ :
  js "abc" <> js ""
  /\ Legacy.validateField (js "studentNumber") (js "abc") = js ""
  /\ validateField (js "studentNumber") (js "abc") <> js ""
  /\ Legacy.validateField <> validateField.
Proof.
  assert (L : Legacy.validateField (js "studentNumber") (js "abc") = js "")
    by reflexivity.
  assert (S : validateField (js "studentNumber") (js "abc") <> js "")
    by (vm_compute; discriminate).
  repeat split; try assumption; try discriminate.
  intros E. apply S. now rewrite <- E.
Qed.

(** C3.  A submission that succeeds (no alert) has written the serialized
    identity record under the key [student_] followed by the submitted student
    number, and nothing else.  In particular the form of Ana Cruz, typed into
    the initial state and submitted where the storage has room, leaves under
    [student_2023-00011-TG-0] the serialized record whose [fullName] is
    [Ana Cruz]. *)
Theorem submit_persists (env : Browser) (st st' : State)
  (localStorage localStorage' : gmap (list N) (list N))
  (effects : list effect) :
  handleSubmit env st localStorage = (st', localStorage', effects) ->
  succeeded effects = true ->
  (let record := generateStaticIdentity env (formData st) in
   let key := js "student_" ++ studentNumber (formData st) in
   localStorage' = <[key := Identity.stringify record]> localStorage
   /\ effects = [SetItem key (Identity.stringify record)]
   /\ registrationData st' = Some record
   /\ isRegistered st' = true)
  /\ (forall (env0 : Browser) (ls0 : gmap (list N) (list N)),
      let record := generateStaticIdentity env0 ana_form in
      quota_allows env0 ls0 (js "student_2023-00011-TG-0")
        (Identity.stringify record) = true ->
      Identity.fullName record = js "Ana Cruz"
      /\ exists st1 ls1,
          handleSubmit env0 ana_state ls0
          = (st1, ls1,
             [SetItem (js "student_2023-00011-TG-0") (Identity.stringify record)])
          /\ ls1 !! js "student_2023-00011-TG-0"
             = Some (Identity.stringify record)
          /\ (forall other : Identity.t,
                ls1 !! js "student_2023-00011-TG-0"
                = Some (Identity.stringify other) ->
                Identity.fullName other = js "Ana Cruz")
          /\ registrationData st1 = Some record).
Proof.
  intros Hrun Hok. split.
  - exact (handleSubmit_succeeded env st localStorage st' localStorage'
             effects Hrun Hok).
  - intros env0 ls0 record Hq. split; [reflexivity |].
    rewrite (handleSubmit_passes env0 ana_state ls0 eq_refl ana_state_no_errors).
    cbv zeta. rewrite ana_state_formData.
    change (js "student_" ++ studentNumber ana_form)
      with (js "student_2023-00011-TG-0").
    fold record. rewrite Hq. eexists _, _. split; [reflexivity |].
    split; [apply lookup_insert_eq |]. split; [| reflexivity].
    intros other. rewrite lookup_insert_eq. intros E.
    assert (E' : record = other)
      by (apply stringify_injective; exact (Some_inj _ _ E)).
    now rewrite <- E'.
Qed.

Lemma submit_persists_witness :
  succeeded (snd (handleSubmit a_browser ana_state ∅)) = true
  /\ snd (fst (handleSubmit a_browser ana_state ∅))
     = <[js "student_2023-00011-TG-0"
         := Identity.stringify (generateStaticIdentity a_browser ana_form)]> ∅.
Proof.
  split; [vm_compute; reflexivity |].
  refine (proj1 (proj1 (submit_persists a_browser ana_state
    (fst (fst (handleSubmit a_browser ana_state ∅))) ∅
    (snd (fst (handleSubmit a_browser ana_state ∅)))
    (snd (handleSubmit a_browser ana_state ∅)) _ _))).
  - now destruct (handleSubmit a_browser ana_state ∅) as [[? ?] ?].
  - vm_compute; reflexivity.
Defined.

(** C4.  The progress is 0 on the empty form and 100 when all five fields are
    filled; with no program chosen it is [baseFilled / 4 * 100], the year
    level playing no part; with a program chosen the year level is the fifth
    field of five; it lies between 0 and 100. *)
Theorem progress_rule (fd : FormData) :
  (studentNumber fd = js "" -> lastName fd = js "" -> firstName fd = js "" ->
   program fd = js "" -> yearLevel fd = js "" ->
   calculateProgress fd = 0%float)
  /\ (complete fd = true -> calculateProgress fd = 100%float)
  /\ (program fd = js "" ->
      calculateProgress fd
      = PrimFloat.mul
          (PrimFloat.div (number_of_nat (baseFilled fd)) 4%float) 100%float
      /\ forall y, calculateProgress (with_yearLevel fd y) = calculateProgress fd)
  /\ (program fd <> js "" ->
      calculateProgress fd
      = PrimFloat.mul
          (PrimFloat.div
             (number_of_nat (baseFilled fd + Nat.b2n (truthy (yearLevel fd))))
             5%float)
          100%float)
  /\ PrimFloat.leb 0%float (calculateProgress fd) = true
  /\ PrimFloat.leb (calculateProgress fd) 100%float = true.
Proof.
  split; [| split; [| split; [| split; [| split]]]].
  - intros; destruct fd; simpl in *; subst; reflexivity.
  - destruct fd as [[| ? ?] [| ? ?] [| ? ?] [| ? ?] [| ? ?]];
      intros H; try discriminate H; vm_compute; reflexivity.
  - intros H. split.
    + destruct fd as [[| ? ?] [| ? ?] [| ? ?] [| ? ?] [| ? ?]];
        try discriminate H; vm_compute; reflexivity.
    + intros y. rewrite !calculateProgress_closed_form.
      destruct fd; simpl in *; subst; reflexivity.
  - intros H.
    destruct fd as [[| ? ?] [| ? ?] [| ? ?] [| ? ?] [| ? ?]];
      try (exfalso; apply H; reflexivity); vm_compute; reflexivity.
  - destruct fd as [[| ? ?] [| ? ?] [| ? ?] [| ? ?] [| ? ?]];
      vm_compute; reflexivity.
  - destruct fd as [[| ? ?] [| ? ?] [| ? ?] [| ? ?] [| ? ?]];
      vm_compute; reflexivity.
Qed.

Lemma progress_rule_witness :
  calculateProgress initialFormData = 0%float
  /\ calculateProgress ana_form = 100%float
  /\ calculateProgress (set_field initialFormData (js "firstName") (js "Ana"))
     = PrimFloat.mul
         (PrimFloat.div
            (number_of_nat
               (baseFilled (set_field initialFormData (js "firstName") (js "Ana"))))
            4%float) 100%float
  /\ calculateProgress (with_yearLevel ana_form (js ""))
     = PrimFloat.mul
         (PrimFloat.div
            (number_of_nat
               (baseFilled (with_yearLevel ana_form (js ""))
                + Nat.b2n (truthy (yearLevel (with_yearLevel ana_form (js ""))))))
            5%float) 100%float.
Proof.
  split; [| split; [| split]].
  - apply (proj1 (progress_rule initialFormData)); reflexivity.
  - apply (proj1 (proj2 (progress_rule ana_form))); reflexivity.
  - apply (proj1 (proj2 (proj2
      (progress_rule (set_field initialFormData (js "firstName") (js "Ana")))))).
    reflexivity.
  - apply (proj1 (proj2 (proj2 (proj2
      (progress_rule (with_yearLevel ana_form (js ""))))))).
    discriminate.
Defined.

(** C5.  Under the strict rule a non-empty student number is free of error
    exactly when it has the format of four digits, a hyphen, five digits, a
    hyphen, [TG], a hyphen and the digit [0].  In particular [abc] gets a
    non-empty error, and once it is typed the submission is blocked whatever
    the other fields hold. *)
Theorem strict_student_number (v : list N) (Hv : v <> js "") :
  (validateField (js "studentNumber") v = js "" <-> canonical_format v)
  /\ validateField (js "studentNumber") (js "abc") <> js ""
  /\ forall (env : Browser) (st : State) (ls : gmap (list N) (list N)),
      fieldErrors (handleInputChange (js "studentNumber") (js "abc") st)
        !! js "studentNumber"
      = Some (validateField (js "studentNumber") (js "abc"))
      /\ blocked (handleInputChange (js "studentNumber") (js "abc") st) ls
           (handleSubmit env
              (handleInputChange (js "studentNumber") (js "abc") st) ls).
Proof.
  assert (Habc : validateField (js "studentNumber") (js "abc") <> js "")
    by (vm_compute; discriminate).
  split; [| split; [exact Habc |]].
  - rewrite validateField_studentNumber_ok, test_studentIdPattern. tauto.
  - intros env st ls.
    pose proof (change_errors := handleInputChange_fieldErrors
                  (js "studentNumber") (js "abc") st).
    assert (Hl : fieldErrors (handleInputChange (js "studentNumber") (js "abc") st)
                 !! js "studentNumber"
                 = Some (validateField (js "studentNumber") (js "abc")))
      by (rewrite change_errors; apply lookup_insert_eq).
    split; [exact Hl |]. unfold blocked.
    destruct (complete (formData (handleInputChange (js "studentNumber") (js "abc") st)))
      eqn:Hc.
    + eexists. apply handleSubmit_hasErrors; [exact Hc |].
      apply hasErrors_true. eauto.
    + eexists. now apply handleSubmit_incomplete.
Qed.

Lemma strict_student_number_witness :
  (validateField (js "studentNumber") (js "2023-00011-TG-0") = js ""
   <-> canonical_format (js "2023-00011-TG-0"))
  /\ blocked abc_state ∅ (handleSubmit a_browser abc_state ∅).
Proof.
  split.
  - apply (strict_student_number (js "2023-00011-TG-0")). discriminate.
  - apply (strict_student_number (js "2023-00011-TG-0")). discriminate.
Defined.

(** C7.  A non-empty first or last name is free of error exactly when it
    consists of ASCII letters and white space only; the empty string is never
    an error, for any field. *)
Theorem name_rule (v : list N) (Hv : v <> js "") :
  (validateField (js "firstName") v = js ""
   <-> only_letters_and_whitespace v = true)
  /\ (validateField (js "lastName") v = js ""
      <-> only_letters_and_whitespace v = true)
  /\ forall name, validateField name (js "") = js "".
Proof.
  assert (T : truthy v = true) by now apply truthy_nonempty.
  split; [| split; [| exact validateField_empty]].
  - rewrite validateField_name_ok by now left.
    rewrite test_namePattern, T. cbn [andb]. tauto.
  - rewrite validateField_name_ok by now right.
    rewrite test_namePattern, T. cbn [andb]. tauto.
Qed.

Lemma name_rule_witness :
  (validateField (js "firstName") (js "Ana Maria") = js ""
   <-> only_letters_and_whitespace (js "Ana Maria") = true)
  /\ (validateField (js "lastName") (js "Cru2") = js ""
      <-> only_letters_and_whitespace (js "Cru2") = true).
Proof.
  split.
  - apply (name_rule (js "Ana Maria")). discriminate.
  - apply (name_rule (js "Cru2")). discriminate.
Defined.

Lemma handleSubmit_passes_checks env st ls :
  complete (formData st) = true -> hasErrors (fieldErrors st) = false ->
  passes_checks env st ls (generateStaticIdentity env (formData st)).
Proof.
  intros Hc He. unfold passes_checks. cbv zeta.
  rewrite (handleSubmit_passes env st ls Hc He). cbv zeta.
  destruct (quota_allows env ls _ _); eexists _, _, _;
    (split; [reflexivity |]); [| discriminate].
  intros _. split; [apply lookup_insert_eq | now split].
Qed.

(** Typing a value that validates into a form whose other entries carry no
    error leaves no error. *)
Lemma change_keeps_error_free name value st :
  validateField name value = js "" ->
  (forall other error,
     other <> name -> fieldErrors st !! other = Some error -> error = js "") ->
  hasErrors (fieldErrors (handleInputChange name value st)) = false.
Proof.
  intros Hv Hothers. apply hasErrors_false. intros k e.
  rewrite handleInputChange_fieldErrors.
  destruct (decide (k = name)) as [-> | Hne].
  - rewrite lookup_insert_eq. intros [= <-]. exact Hv.
  - rewrite lookup_insert_ne by congruence. now apply Hothers.
Qed.

(** C10.  A non-empty name made of white space only gets no error and counts
    as filled: typed as first (or last) name into a form whose other fields
    are filled and carry no error, it passes both checks of the submit
    handler, and the record written has the name verbatim in [fullName]. *)
Theorem whitespace_only_name (ws : list N)
  (Hne : ws <> js "") (Hws : forallb is_whitespace ws = true) :
  validateField (js "firstName") ws = js ""
  /\ validateField (js "lastName") ws = js ""
  /\ truthy ws = true
  /\ (forall (env : Browser) (st : State) (ls : gmap (list N) (list N)),
      studentNumber (formData st) <> js "" -> lastName (formData st) <> js "" ->
      program (formData st) <> js "" -> yearLevel (formData st) <> js "" ->
      (forall other error, other <> js "firstName" ->
         fieldErrors st !! other = Some error -> error = js "") ->
      exists record,
        passes_checks env (handleInputChange (js "firstName") ws st) ls record
        /\ Identity.fullName record = ws ++ js " " ++ lastName (formData st))
  /\ (forall (env : Browser) (st : State) (ls : gmap (list N) (list N)),
      studentNumber (formData st) <> js "" -> firstName (formData st) <> js "" ->
      program (formData st) <> js "" -> yearLevel (formData st) <> js "" ->
      (forall other error, other <> js "lastName" ->
         fieldErrors st !! other = Some error -> error = js "") ->
      exists record,
        passes_checks env (handleInputChange (js "lastName") ws st) ls record
        /\ Identity.fullName record = firstName (formData st) ++ js " " ++ ws).
Proof.
  assert (T : truthy ws = true) by now apply truthy_nonempty.
  assert (W : only_letters_and_whitespace ws = true).
  { unfold only_letters_and_whitespace. clear -Hws.
    induction ws as [| c s IH]; simpl in *; [reflexivity |].
    apply andb_true_iff in Hws as [-> Hs]. rewrite orb_true_r. now apply IH. }
  assert (F : validateField (js "firstName") ws = js "").
  { apply validateField_name_ok; [now left |]. right.
    now rewrite test_namePattern, T, W. }
  assert (L : validateField (js "lastName") ws = js "").
  { apply validateField_name_ok; [now right |]. right.
    now rewrite test_namePattern, T, W. }
  split; [exact F |]. split; [exact L |]. split; [exact T |]. split.
  - intros env st ls Hsn Hln Hpr Hyl Herr.
    exists (generateStaticIdentity env
              (formData (handleInputChange (js "firstName") ws st))).
    split; [| reflexivity].
    apply handleSubmit_passes_checks.
    + apply truthy_nonempty in Hsn, Hln, Hpr, Hyl.
      rewrite handleInputChange_formData, set_field_firstName by discriminate.
      unfold complete. cbn [studentNumber lastName firstName program yearLevel].
      now rewrite Hsn, Hln, Hpr, Hyl, T.
    + now apply change_keeps_error_free.
  - intros env st ls Hsn Hfn Hpr Hyl Herr.
    exists (generateStaticIdentity env
              (formData (handleInputChange (js "lastName") ws st))).
    split; [| reflexivity].
    apply handleSubmit_passes_checks.
    + apply truthy_nonempty in Hsn, Hfn, Hpr, Hyl.
      rewrite handleInputChange_formData, set_field_lastName by discriminate.
      unfold complete. cbn [studentNumber lastName firstName program yearLevel].
      now rewrite Hsn, Hfn, Hpr, Hyl, T.
    + now apply change_keeps_error_free.
Qed.

Lemma whitespace_only_name_witness :
  validateField (js "firstName") (js " ") = js ""
  /\ exists record,
      passes_checks a_browser
        (handleInputChange (js "firstName") (js " ") ana_state) ∅ record
      /\ Identity.fullName record = js " " ++ js " " ++ js "Cruz".
Proof.
  pose proof (whitespace_only_name (js " ")
                ltac:(discriminate) ltac:(reflexivity)) as (F & _ & _ & H & _).
  split; [exact F |].
  apply (H a_browser ana_state ∅); try discriminate.
  intros other error _ Hl. apply (proj1 (hasErrors_false _) ana_state_no_errors other error Hl).
Defined.

(** * Further properties of the component *)

(** X1.  The year levels offered: four for the bachelor's program, three for
    the diploma program (each of them also a bachelor's year level), none for
    any other value. *)
Theorem year_levels_by_program (p : list N) :
  length (getYearLevels (js "Bachelor of Science in Information Technology"))
    = 4%nat
  /\ length (getYearLevels (js "Diploma in Information Technology")) = 3%nat
  /\ (forall y, In y (getYearLevels (js "Diploma in Information Technology")) ->
        In y (getYearLevels (js "Bachelor of Science in Information Technology")))
  /\ (~ In p programs -> getYearLevels p = []).
Proof.
  split; [reflexivity |]. split; [reflexivity |]. split.
  - intros y Hy. simpl in *. tauto.
  - intros Hp. unfold getYearLevels.
    destruct (str_eq p (js "Bachelor of Science in Information Technology"))
      eqn:E1.
    + exfalso. apply Hp. apply str_eq_true in E1 as ->. now left.
    + destruct (str_eq p (js "Diploma in Information Technology")) eqn:E2;
        [| reflexivity].
      exfalso. apply Hp. apply str_eq_true in E2 as ->. right. now left.
Qed.

Lemma year_levels_by_program_witness : getYearLevels (js "") = [].
Proof.
  apply (year_levels_by_program (js "")).
  intros [H | [H | []]]; discriminate H.
Defined.

(** X2.  When the storage refuses the write, the submission fails with an
    alert: the storage is as before, the component is not marked registered
    and holds no new record. *)
Theorem storage_failure (env : Browser) (st : State)
  (localStorage : gmap (list N) (list N)) :
  complete (formData st) = true ->
  hasErrors (fieldErrors st) = false ->
  quota_allows env localStorage
    (js "student_" ++ studentNumber (formData st))
    (Identity.stringify (generateStaticIdentity env (formData st))) = false ->
  exists st',
    handleSubmit env st localStorage
    = (st', localStorage,
       [SetItem (js "student_" ++ studentNumber (formData st))
          (Identity.stringify (generateStaticIdentity env (formData st)));
        Alert (js "Registration failed. Please try again.")])
    /\ isRegistered st' = isRegistered st
    /\ registrationData st' = registrationData st
    /\ isProcessing st' = false.
Proof.
  intros Hc He Hq. rewrite (handleSubmit_passes env st localStorage Hc He).
  cbv zeta. rewrite Hq. eexists. split; [reflexivity |]. now repeat split.
Qed.

Lemma storage_failure_witness :
  exists st',
    handleSubmit a_full_browser ana_state ∅
    = (st', ∅,
       [SetItem (js "student_" ++ studentNumber (formData ana_state))
          (Identity.stringify
             (generateStaticIdentity a_full_browser (formData ana_state)));
        Alert (js "Registration failed. Please try again.")])
    /\ isRegistered st' = isRegistered ana_state
    /\ registrationData st' = registrationData ana_state
    /\ isProcessing st' = false.
Proof.
  apply storage_failure; [reflexivity | exact ana_state_no_errors | reflexivity].
Defined.

(** X3.  The strict rule refines the earlier one: a student number of the
    strict format also passes the letters-digits-hyphens rule. *)
Theorem strict_refines_legacy (v : list N) :
  validateField (js "studentNumber") v = js "" ->
  Legacy.validateField (js "studentNumber") v = js "".
Proof.
  intros H. apply validateField_studentNumber_ok in H as [-> | H].
  - reflexivity.
  - apply canonical_passes_legacy. now apply test_studentIdPattern.
Qed.

Lemma strict_refines_legacy_witness :
  Legacy.validateField (js "studentNumber") (js "2023-00011-TG-0") = js "".
Proof. apply strict_refines_legacy. reflexivity. Defined.



(** X5.  Last write wins: after two successful submissions under one student
    number the slot holds the second record, as if the first submission had
    not happened. *)
Theorem last_write_wins (env1 env2 : Browser) (st1 st2 st1' st2' : State)
  (ls ls1 ls2 : gmap (list N) (list N)) (effects1 effects2 : list effect) :
  handleSubmit env1 st1 ls = (st1', ls1, effects1) ->
  succeeded effects1 = true ->
  handleSubmit env2 st2 ls1 = (st2', ls2, effects2) ->
  succeeded effects2 = true ->
  studentNumber (formData st1) = studentNumber (formData st2) ->
  ls2 = <[js "student_" ++ studentNumber (formData st2)
          := Identity.stringify (generateStaticIdentity env2 (formData st2))]> ls.
Proof.
  intros H1 S1 H2 S2 E.
  destruct (handleSubmit_succeeded _ _ _ _ _ _ H1 S1) as (-> & _).
  destruct (handleSubmit_succeeded _ _ _ _ _ _ H2 S2) as (-> & _).
  rewrite E. apply insert_insert_eq.
Qed.

Lemma last_write_wins_witness :
  snd (fst (handleSubmit a_browser program_year_rechosen_state
              (snd (fst (handleSubmit a_browser ana_state ∅)))))
  = <[js "student_" ++ studentNumber (formData program_year_rechosen_state)
      := Identity.stringify
           (generateStaticIdentity a_browser
              (formData program_year_rechosen_state))]> ∅.
Proof.
  refine (last_write_wins a_browser a_browser ana_state
    program_year_rechosen_state
    (fst (fst (handleSubmit a_browser ana_state ∅)))
    (fst (fst (handleSubmit a_browser program_year_rechosen_state
                 (snd (fst (handleSubmit a_browser ana_state ∅))))))
    ∅ (snd (fst (handleSubmit a_browser ana_state ∅))) _
    (snd (handleSubmit a_browser ana_state ∅))
    (snd (handleSubmit a_browser program_year_rechosen_state
            (snd (fst (handleSubmit a_browser ana_state ∅)))))
    _ _ _ _ _).
  - now destruct (handleSubmit a_browser ana_state ∅) as [[? ?] ?].
  - vm_compute; reflexivity.
  - now destruct (handleSubmit a_browser program_year_rechosen_state _)
      as [[? ?] ?].
  - vm_compute; reflexivity.
  - reflexivity.
Defined.

(** X6.  The serialized record determines the record: reading it back gives
    every field as it was, whatever characters the fields hold. *)
Theorem serialization_round_trip (r : Identity.t) :
  Identity.parse (Identity.stringify r) = Some r
  /\ forall r', Identity.stringify r' = Identity.stringify r <-> r' = r.
Proof.
  split; [apply parse_stringify |].
  intros r'. split; [apply stringify_injective | now intros ->].
Qed.

(** A change of a field other than the program touches that field of the
    form only; a change of the program also empties the year level and
    nothing else. *)
Theorem change_touches_one_field (st : State) (value : list N) :
  formData (handleInputChange (js "studentNumber") value st)
    = {| studentNumber := value; lastName := lastName (formData st);
         firstName := firstName (formData st); program := program (formData st);
         yearLevel := yearLevel (formData st) |}
  /\ formData (handleInputChange (js "lastName") value st)
    = {| studentNumber := studentNumber (formData st); lastName := value;
         firstName := firstName (formData st); program := program (formData st);
         yearLevel := yearLevel (formData st) |}
  /\ formData (handleInputChange (js "firstName") value st)
    = {| studentNumber := studentNumber (formData st);
         lastName := lastName (formData st); firstName := value;
         program := program (formData st);
         yearLevel := yearLevel (formData st) |}
  /\ formData (handleInputChange (js "program") value st)
    = {| studentNumber := studentNumber (formData st);
         lastName := lastName (formData st);
         firstName := firstName (formData st); program := value;
         yearLevel := js "" |}
  /\ formData (handleInputChange (js "yearLevel") value st)
    = {| studentNumber := studentNumber (formData st);
         lastName := lastName (formData st);
         firstName := firstName (formData st); program := program (formData st);
         yearLevel := value |}.
Proof. repeat split. Qed.

(** * The submit button, the progress bar and single changes *)

Lemma progress_100_complete fd :
  calculateProgress fd = 100%float -> complete fd = true.
Proof.
  destruct fd as [[| ? ?] [| ? ?] [| ? ?] [| ? ?] [| ? ?]]; intros H;
    try reflexivity;
    apply (f_equal (PrimFloat.leb 100%float)) in H; vm_compute in H;
    discriminate H.
Qed.

Lemma complete_progress_100 fd :
  complete fd = true -> calculateProgress fd = 100%float.
Proof.
  destruct fd as [[| ? ?] [| ? ?] [| ? ?] [| ? ?] [| ? ?]]; intros H;
    try discriminate H; vm_compute; reflexivity.
Qed.

Lemma submitDisabled_false st :
  submitDisabled st = false <->
  isProcessing st = false /\ complete (formData st) = true.
Proof.
  unfold submitDisabled, complete.
  destruct (isProcessing st), (truthy (studentNumber (formData st))),
    (truthy (lastName (formData st))), (truthy (firstName (formData st))),
    (truthy (program (formData st))), (truthy (yearLevel (formData st)));
    cbn; intuition congruence.
Qed.

(** X13.  The submit button is enabled exactly when no submission is being
    processed and the progress bar is at 100; a submission through the
    enabled button never meets the all-fields check: it is stopped by an
    error of a field or reaches the storage write. *)
Theorem submit_button_progress (st : State) :
  (submitDisabled st = false <->
   isProcessing st = false /\ calculateProgress (formData st) = 100%float)
  /\ (submitDisabled st = false ->
      forall env ls,
        handleSubmit env st ls
        = (st, ls, [Alert (js "Please fix the errors before submitting")])
        \/ passes_checks env st ls (generateStaticIdentity env (formData st))).
Proof.
  split.
  - rewrite submitDisabled_false. split; intros [Hp Hc]; (split; [exact Hp |]).
    + now apply complete_progress_100.
    + now apply progress_100_complete.
  - intros H env ls. apply submitDisabled_false in H as [_ Hc].
    destruct (hasErrors (fieldErrors st)) eqn:He.
    + left. now apply handleSubmit_hasErrors.
    + right. now apply handleSubmit_passes_checks.
Qed.

Lemma submit_button_progress_witness :
  (isProcessing ana_state = false
   /\ calculateProgress (formData ana_state) = 100%float)
  /\ (handleSubmit a_browser ana_state ∅
      = (ana_state, ∅, [Alert (js "Please fix the errors before submitting")])
      \/ passes_checks a_browser ana_state ∅
           (generateStaticIdentity a_browser (formData ana_state))).
Proof.
  split.
  - apply (proj1 (submit_button_progress ana_state)). reflexivity.
  - apply (proj2 (submit_button_progress ana_state)). reflexivity.
Defined.

(** X14.  Filling an empty field never lowers the progress, and raises it
    unless the field is the year level of a form without program (which the
    bar does not count). *)
Theorem progress_grows (st : State) (name value : list N) :
  In name field_names ->
  get_field (formData st) name = Some (js "") ->
  value <> js "" ->
  PrimFloat.leb (calculateProgress (formData st))
    (calculateProgress (formData (handleInputChange name value st))) = true
  /\ (name <> js "yearLevel" \/ program (formData st) <> js "" ->
      PrimFloat.ltb (calculateProgress (formData st))
        (calculateProgress (formData (handleInputChange name value st)))
      = true).
Proof.
  intros Hname Hg Hv. destruct value as [| c value']; [easy |].
  destruct st as [fd ? ? ? ? ? ?]. cbn [formData] in *.
  unfold field_names in Hname. simpl In in Hname.
  destruct Hname as [<- | [<- | [<- | [<- | [<- | []]]]]];
    destruct fd as [[| ? ?] [| ? ?] [| ? ?] [| ? ?] [| ? ?]];
    try discriminate Hg;
    (split; [vm_compute; reflexivity |]);
    intros [H | H]; try (exfalso; apply H; reflexivity);
    vm_compute; reflexivity.
Qed.

Lemma progress_grows_witness :
  PrimFloat.ltb (calculateProgress (formData program_rechosen_state))
    (calculateProgress
       (formData
          (handleInputChange (js "yearLevel") (js "4th Year")
             program_rechosen_state)))
  = true.
Proof.
  apply (progress_grows program_rechosen_state (js "yearLevel") (js "4th Year"));
    [unfold field_names; simpl; auto 10 | reflexivity | discriminate |].
  right. discriminate.
Defined.

Lemma change_change_formData name value1 value2 st :
  formData (handleInputChange name value2 (handleInputChange name value1 st))
  = formData (handleInputChange name value2 st).
Proof.
  destruct (decide (name = js "studentNumber")) as [-> | N1]; [reflexivity |].
  destruct (decide (name = js "lastName")) as [-> | N2]; [reflexivity |].
  destruct (decide (name = js "firstName")) as [-> | N3]; [reflexivity |].
  destruct (decide (name = js "program")) as [-> | N4]; [reflexivity |].
  destruct (decide (name = js "yearLevel")) as [-> | N5]; [reflexivity |].
  apply str_eq_false in N1, N2, N3, N4, N5.
  unfold handleInputChange, set_field. cbn [formData].
  now rewrite N1, N2, N3, N4, N5.
Qed.

(** X15.  A later change of a field overrides an earlier one of the same
    field, error included; and changes of two different fields give the same
    state in either order, unless the two are the program and the year
    level. *)
Theorem changes_compose (st : State) (name1 name2 value1 value2 : list N) :
  handleInputChange name1 value2 (handleInputChange name1 value1 st)
  = handleInputChange name1 value2 st
  /\ (In name1 field_names -> In name2 field_names -> name1 <> name2 ->
      ~ (name1 = js "program" /\ name2 = js "yearLevel") ->
      ~ (name1 = js "yearLevel" /\ name2 = js "program") ->
      handleInputChange name1 value1 (handleInputChange name2 value2 st)
      = handleInputChange name2 value2 (handleInputChange name1 value1 st)).
Proof.
  split.
  - pose proof (change_change_formData name1 value1 value2 st) as F.
    unfold handleInputChange in *. cbn [formData fieldErrors qrCodeUrl
      isRegistered showModal isProcessing registrationData] in *.
    rewrite F. f_equal. apply insert_insert_eq.
  - intros H1 H2 Hne Hpy Hyp.
    assert (F : formData (handleInputChange name1 value1
                            (handleInputChange name2 value2 st))
                = formData (handleInputChange name2 value2
                              (handleInputChange name1 value1 st))).
    { unfold field_names in H1, H2. simpl In in H1, H2.
      destruct H1 as [<- | [<- | [<- | [<- | [<- | []]]]]];
        destruct H2 as [<- | [<- | [<- | [<- | [<- | []]]]]];
        try reflexivity; try (now contradiction Hne);
        try (exfalso; apply Hpy; now split);
        exfalso; apply Hyp; now split. }
    unfold handleInputChange in *. cbn [formData fieldErrors qrCodeUrl
      isRegistered showModal isProcessing registrationData] in *.
    rewrite F. f_equal. now apply insert_insert_ne.
Qed.

Lemma changes_compose_witness :
  handleInputChange (js "firstName") (js "Ana")
    (handleInputChange (js "program") (js "Diploma in Information Technology")
       initialState)
  = handleInputChange (js "program") (js "Diploma in Information Technology")
      (handleInputChange (js "firstName") (js "Ana") initialState).
Proof.
  apply (proj2 (changes_compose initialState (js "firstName") (js "program")
                  (js "Ana") (js "Diploma in Information Technology")));
    try (unfold field_names; simpl; auto 10; fail);
    try discriminate; intros [H _]; discriminate H.
Defined.

(** * The QR code and the download *)

(** X16.  After a successful submission, with the canvas in place, the effect
    hands the QR library the very text that the submission stored, and that
    text reads back as the record.  If the drawing succeeds its data URL
    becomes the image on offer; if it throws, an alert is raised and the
    state stays as it is. *)
Theorem qr_encodes_stored_record (env : Browser) (canvas : Canvas)
  (st st' : State) (ls ls' : gmap (list N) (list N)) (effects : list effect) :
  handleSubmit env st ls = (st', ls', effects) ->
  succeeded effects = true ->
  mounted canvas = true ->
  exists record text,
    text = Identity.stringify record
    /\ registrationData st' = Some record
    /\ ls' !! (js "student_" ++ studentNumber (formData st)) = Some text
    /\ Identity.parse text = Some record
    /\ match draw canvas text with
       | Some dataUrl =>
           registrationEffect canvas st'
           = (setQrCodeUrl dataUrl st',
              [ToCanvas text 300 2 (js "#000000") (js "#FFFFFF") (js "M")])
       | None =>
           registrationEffect canvas st'
           = (st',
              [ToCanvas text 300 2 (js "#000000") (js "#FFFFFF") (js "M");
               ShowAlert (js "Failed to generate QR code. Please try again.")])
       end.
Proof.
  intros Hrun Hok Hm.
  destruct (handleSubmit_succeeded env st ls st' ls' effects Hrun Hok)
    as (-> & _ & Hr & Hreg).
  exists (generateStaticIdentity env (formData st)),
    (Identity.stringify (generateStaticIdentity env (formData st))).
  split; [reflexivity |]. split; [exact Hr |].
  split; [apply lookup_insert_eq |]. split; [apply parse_stringify |].
  unfold registrationEffect, generateQRCode. rewrite Hr, Hreg, Hm.
  cbn [andb negb]. now destruct (draw canvas _).
Qed.

Lemma qr_encodes_stored_record_witness :
  exists record text,
    text = Identity.stringify record
    /\ registrationData (fst (fst (handleSubmit a_browser ana_state ∅)))
       = Some record
    /\ snd (fst (handleSubmit a_browser ana_state ∅))
         !! (js "student_" ++ studentNumber (formData ana_state)) = Some text
    /\ Identity.parse text = Some record
    /\ match draw a_canvas text with
       | Some dataUrl =>
           registrationEffect a_canvas
             (fst (fst (handleSubmit a_browser ana_state ∅)))
           = (setQrCodeUrl dataUrl
                (fst (fst (handleSubmit a_browser ana_state ∅))),
              [ToCanvas text 300 2 (js "#000000") (js "#FFFFFF") (js "M")])
       | None =>
           registrationEffect a_canvas
             (fst (fst (handleSubmit a_browser ana_state ∅)))
           = (fst (fst (handleSubmit a_browser ana_state ∅)),
              [ToCanvas text 300 2 (js "#000000") (js "#FFFFFF") (js "M");
               ShowAlert (js "Failed to generate QR code. Please try again.")])
       end.
Proof.
  refine (qr_encodes_stored_record a_browser a_canvas ana_state _ ∅ _
            (snd (handleSubmit a_browser ana_state ∅)) _ _ eq_refl).
  - now destruct (handleSubmit a_browser ana_state ∅) as [[? ?] ?].
  - vm_compute; reflexivity.
Defined.






Lemma starts_with_spec needle :
  forall haystack,
    starts_with needle haystack = true <->
    exists after, haystack = needle ++ after.
Proof.
  induction needle as [| a needle IH]; intros haystack; cbn [starts_with].
  - split; [intros _; now exists haystack | reflexivity].
  - destruct haystack as [| b haystack].
    + split; [discriminate | intros (after & H); discriminate H].
    + rewrite andb_true_iff, N.eqb_eq, IH. split.
      * intros (-> & after & ->). now exists after.
      * intros (after & H). injection H as -> ->. split; [reflexivity |].
        now exists after.
Qed.

Lemma includes_spec haystack needle :
  includes haystack needle = true <-> occurs_in needle haystack.
Proof.
  unfold occurs_in. induction haystack as [| c haystack IH];
    cbn [includes]; rewrite orb_true_iff, starts_with_spec.
  - split.
    + intros [(after & H) | H]; [| discriminate H]. now exists [], after.
    + intros (before & after & H). left.
      destruct before; [now exists after | discriminate H].
  - rewrite IH. split.
    + intros [(after & H) | (before & after & ->)].
      * now exists [], after.
      * now exists (c :: before), after.
    + intros ([| x before] & after & H).
      * left. now exists after.
      * right. injection H as _ ->. now exists before, after.
Qed.

Lemma occurs_in_trans a b c : occurs_in a b -> occurs_in b c -> occurs_in a c.
Proof.
  intros (p & q & ->) (p' & q' & ->). exists (p' ++ p), (q ++ q').
  now rewrite <- !app_assoc.
Qed.

(** X18.  The earlier download classifies a browser by the first non-empty of
    [navigator.userAgent] and [navigator.vendor]: as in-app exactly when one
    of FBAN, FBAV, Instagram, WhatsApp, Line, Messenger, Twitter occurs in it
    (the test for MicroMessenger adds nothing), or Mobile and Safari occur
    without Chrome.  With both strings empty the test throws. *)
Theorem in_app_browser_rule (navigator : LegacyDownload.Navigator)
  (ua : list N) :
  (LegacyDownload.isInAppBrowser navigator = None <->
   LegacyDownload.userAgent navigator = js ""
   /\ LegacyDownload.vendor navigator = js "")
  /\ (ua <> js "" ->
      LegacyDownload.userAgent navigator = ua
      \/ (LegacyDownload.userAgent navigator = js ""
          /\ LegacyDownload.vendor navigator = ua) ->
      (LegacyDownload.isInAppBrowser navigator = Some true
       \/ LegacyDownload.isInAppBrowser navigator = Some false)
      /\ (LegacyDownload.isInAppBrowser navigator = Some true <->
          (exists marker, In marker in_app_markers /\ occurs_in marker ua)
          \/ (occurs_in (js "Mobile") ua /\ occurs_in (js "Safari") ua
              /\ ~ occurs_in (js "Chrome") ua))).
Proof.
  unfold LegacyDownload.isInAppBrowser. cbv zeta. split.
  - destruct (LegacyDownload.userAgent navigator) as [| c u];
      destruct (LegacyDownload.vendor navigator) as [| d v]; cbn [truthy];
      split; try easy; intros [H1 H2]; discriminate.
  - intros Hne Hua.
    assert (E : (if truthy (LegacyDownload.userAgent navigator)
                 then Some (LegacyDownload.userAgent navigator)
                 else if truthy (LegacyDownload.vendor navigator)
                      then Some (LegacyDownload.vendor navigator) else None)
                = Some ua).
    { apply truthy_nonempty in Hne.
      destruct Hua as [<- | [-> <-]]; [now rewrite Hne |].
      cbn [js truthy]. now rewrite Hne. }
    rewrite E.
    set (b := _ || _ || _ || _ || _ || _ || _ || _ || _).
    split; [destruct b; auto |].
    assert (Hb : b = true <->
      (exists marker, In marker in_app_markers /\ occurs_in marker ua)
      \/ (occurs_in (js "Mobile") ua /\ occurs_in (js "Safari") ua
          /\ ~ occurs_in (js "Chrome") ua)).
    { subst b. rewrite !orb_true_iff, !andb_true_iff, negb_true_iff,
        <- not_true_iff_false, !includes_spec.
      unfold in_app_markers. split.
      - intros [[[[[[[[H | H] | H] | H] | H] | H] | H] | H] | H];
          try (left; eexists; split; [| exact H]; simpl; auto 10; fail).
        + left. exists (js "Messenger"). split; [simpl; auto 10 |].
          apply (occurs_in_trans _ (js "MicroMessenger")); [| exact H].
          now exists (js "Micro"), (js "").
        + right. tauto.
      - intros [(marker & Hin & H) | H]; [| tauto].
        simpl In in Hin.
        destruct Hin as [<- | [<- | [<- | [<- | [<- | [<- | [<- | []]]]]]]];
          tauto. }
    rewrite <- Hb. split; [now intros [= ->] | now intros ->].
Qed.

Lemma in_app_browser_rule_witness :
  LegacyDownload.isInAppBrowser facebook_navigator = Some true <->
  (exists marker,
      In marker in_app_markers
      /\ occurs_in marker (LegacyDownload.userAgent facebook_navigator))
  \/ (occurs_in (js "Mobile") (LegacyDownload.userAgent facebook_navigator)
      /\ occurs_in (js "Safari") (LegacyDownload.userAgent facebook_navigator)
      /\ ~ occurs_in (js "Chrome") (LegacyDownload.userAgent facebook_navigator)).
Proof.
  apply (in_app_browser_rule facebook_navigator
           (LegacyDownload.userAgent facebook_navigator));
    [discriminate | now left].
Defined.



(** * The page as a whole *)

(** [handleSubmit] is its first half followed at once by its second. *)
Lemma handleSubmit_two_halves env st ls :
  handleSubmit env st ls
  = match submitStart st with
    | (st1, Some snapshot, _) => submitFinish env snapshot st1 ls
    | (_, None, effects) => (st, ls, effects)
    end.
Proof.
  unfold handleSubmit, submitStart, submitFinish. cbv zeta.
  destruct (negb (truthy (studentNumber (formData st))) || _ || _ || _ || _);
    [reflexivity |].
  destruct (hasErrors (fieldErrors st)); [reflexivity |].
  cbn [formData qrCodeUrl isRegistered showModal isProcessing fieldErrors
       registrationData].
  now destruct (setItem env ls _ _).
Qed.

Lemma submitStart_complete st :
  complete (formData st) = true ->
  submitStart st
  = if hasErrors (fieldErrors st)
    then (st, None, [Alert (js "Please fix the errors before submitting")])
    else ({| formData := formData st; qrCodeUrl := qrCodeUrl st;
             isRegistered := isRegistered st; showModal := showModal st;
             isProcessing := true; fieldErrors := fieldErrors st;
             registrationData := registrationData st |},
          Some (formData st), []).
Proof.
  unfold complete, submitStart. cbv zeta.
  destruct (truthy (studentNumber (formData st))),
    (truthy (lastName (formData st))), (truthy (firstName (formData st))),
    (truthy (program (formData st))), (truthy (yearLevel (formData st)));
    cbn [negb orb andb]; intros H; try discriminate H; reflexivity.
Qed.

Lemma has_option_In options value :
  has_option options value = true <-> In value options.
Proof.
  unfold has_option. rewrite existsb_exists. split.
  - intros (o & Ho & E). apply str_eq_true in E. now subst.
  - intros H. exists value. split; [exact H | now apply str_eq_true].
Qed.

Lemma get_field_Some fd n v :
  get_field fd n = Some v -> In n field_names.
Proof.
  unfold get_field, field_names.
  destruct (str_eq n (js "studentNumber")) eqn:E1;
    [apply str_eq_true in E1 as ->; simpl; auto 10 |].
  destruct (str_eq n (js "lastName")) eqn:E2;
    [apply str_eq_true in E2 as ->; simpl; auto 10 |].
  destruct (str_eq n (js "firstName")) eqn:E3;
    [apply str_eq_true in E3 as ->; simpl; auto 10 |].
  destruct (str_eq n (js "program")) eqn:E4;
    [apply str_eq_true in E4 as ->; simpl; auto 10 |].
  destruct (str_eq n (js "yearLevel")) eqn:E5;
    [apply str_eq_true in E5 as ->; simpl; auto 10 |].
  discriminate.
Qed.

(** The fields of the form after a change, read by name. *)
Lemma change_get_field name value st n :
  In name field_names -> In n field_names ->
  get_field (formData (handleInputChange name value st)) n
  = if str_eq n name then Some value
    else if str_eq name (js "program") && str_eq n (js "yearLevel")
         then Some (js "")
         else get_field (formData st) n.
Proof.
  unfold field_names. simpl In.
  intros [<- | [<- | [<- | [<- | [<- | []]]]]]
         [<- | [<- | [<- | [<- | [<- | []]]]]]; reflexivity.
Qed.

Lemma change_selects name value st :
  In name field_names ->
  program (formData (handleInputChange name value st))
  = (if str_eq name (js "program") then value else program (formData st))
  /\ yearLevel (formData (handleInputChange name value st))
     = (if str_eq name (js "program") then js ""
        else if str_eq name (js "yearLevel") then value
             else yearLevel (formData st)).
Proof.
  unfold field_names. simpl In.
  intros [<- | [<- | [<- | [<- | [<- | []]]]]]; split; reflexivity.
Qed.

Lemma offered_Change p name value :
  offered p (Change name value) = true ->
  isRegistered (component p) = false /\ In name field_names
  /\ (name = js "program" -> In value (js "" :: programs))
  /\ (name = js "yearLevel" ->
      In value (js "" :: getYearLevels (program (formData (component p))))).
Proof.
  unfold offered. cbv zeta.
  rewrite andb_true_iff, negb_true_iff, !orb_true_iff,
    !andb_true_iff, !str_eq_true, !has_option_In.
  intros (Hr & [[[[-> | ->] | ->] | [-> Hv]] | [-> Hv]]);
    (split; [exact Hr |]); (split; [unfold field_names; simpl; auto 10 |]);
    split; intros E; try discriminate E; assumption.
Qed.

(** What a complete form without errors holds, given that the errors are in
    step with the fields and the selects hold listed values. *)
Lemma checked_form_valid (env : Browser) (fd : FormData)
  (errs : gmap (list N) (list N)) :
  complete fd = true -> hasErrors errs = false ->
  In (program fd) (js "" :: programs) ->
  In (yearLevel fd) (js "" :: getYearLevels (program fd)) ->
  (forall name v, get_field fd name = Some v ->
     v = js "" \/ errs !! name = Some (validateField name v)) ->
  valid_record (generateStaticIdentity env fd).
Proof.
  intros Hc He Hp Hy Hsync. unfold complete in Hc.
  rewrite !andb_true_iff, !truthy_nonempty in Hc.
  destruct Hc as ((((Hsn & Hln) & Hfn) & Hpr) & Hyl).
  assert (Hok : forall name v, get_field fd name = Some v -> v <> js "" ->
                validateField name v = js "").
  { intros name v Hg Hv. destruct (Hsync name v Hg) as [-> | Hl]; [easy |].
    exact (proj1 (hasErrors_false errs) He name _ Hl). }
  unfold valid_record, generateStaticIdentity.
  cbn [Identity.studentNumber Identity.fullName Identity.program
       Identity.yearLevel Identity.id].
  split; [| split; [| split; [| split]]].
  - apply test_studentIdPattern.
    pose proof (Hok (js "studentNumber") (studentNumber fd) eq_refl Hsn) as H.
    apply validateField_studentNumber_ok in H as [H | H]; [contradiction | exact H].
  - exists (firstName fd), (lastName fd). split; [reflexivity |].
    pose proof (Hok (js "firstName") (firstName fd) eq_refl Hfn) as H1.
    pose proof (Hok (js "lastName") (lastName fd) eq_refl Hln) as H2.
    apply validateField_name_ok in H1 as [H1 | H1];
      [contradiction | | now left].
    apply validateField_name_ok in H2 as [H2 | H2];
      [contradiction | | now right].
    rewrite test_namePattern in H1, H2.
    apply andb_true_iff in H1 as [_ H1]. apply andb_true_iff in H2 as [_ H2].
    now repeat split.
  - destruct Hp as [Hp | Hp]; [now rewrite <- Hp in Hpr | exact Hp].
  - destruct Hy as [Hy | Hy]; [now rewrite <- Hy in Hyl | exact Hy].
  - now exists (now env).
Qed.

Lemma initial_page_invariant ls0 : page_invariant ls0 (initialPage ls0).
Proof.
  unfold page_invariant, initialPage.
  cbn [component stored processing formData initialState isProcessing
       fieldErrors isRegistered registrationData showModal].
  split; [now left |]. split; [now left |].
  split; [intros name error H; now rewrite lookup_empty in H |].
  split; [| split; [reflexivity |
                    split; [now split | intros key value H; now left]]].
  intros name v H. left. pose proof (get_field_Some _ _ _ H) as Hn.
  unfold field_names in Hn. simpl In in Hn.
  destruct Hn as [<- | [<- | [<- | [<- | [<- | []]]]]];
    now injection H as <-.
Qed.

Lemma change_invariant ls0 name value p :
  offered p (Change name value) = true ->
  page_invariant ls0 p ->
  page_invariant ls0
    (mkPage (handleInputChange name value (component p)) (stored p)
       (processing p)).
Proof.
  destruct p as [st ls pending].
  intros Hoff (Hprog & Hyear & Herr1 & Herr2 & Hproc & Hreg & Hstore).
  apply offered_Change in Hoff as (Hr & Hname & Hpv & Hyv).
  cbn [component stored processing] in *.
  pose proof (change_get_field name value st) as G.
  pose proof (change_selects name value st Hname) as S.
  unfold page_invariant. cbv zeta. cbn [component stored processing].
  assert (Hsel : In (program (formData (handleInputChange name value st)))
                   (js "" :: programs)
                 /\ In (yearLevel (formData (handleInputChange name value st)))
                      (js "" :: getYearLevels
                         (program (formData (handleInputChange name value st))))).
  { destruct S as [-> ->]. destruct (str_eq name (js "program")) eqn:E1.
    - apply str_eq_true in E1. split; [now apply Hpv | now left].
    - destruct (str_eq name (js "yearLevel")) eqn:E2.
      + apply str_eq_true in E2. split; [exact Hprog | now apply Hyv].
      + now split. }
  destruct Hsel as [Hsel1 Hsel2].
  split; [exact Hsel1 |]. split; [exact Hsel2 |].
  rewrite Hr in Hreg.
  change (isRegistered (handleInputChange name value st))
    with (isRegistered st).
  change (isProcessing (handleInputChange name value st))
    with (isProcessing st).
  rewrite Hr. rewrite handleInputChange_fieldErrors.
  split; [| split; [| split; [| split; [exact Hreg | exact Hstore]]]].
  - intros n e. destruct (decide (n = name)) as [-> | Hne].
    + rewrite lookup_insert_eq. intros [= <-]. exists value.
      split; [| reflexivity].
      rewrite (G name Hname Hname).
      now rewrite (proj2 (str_eq_true name name) eq_refl).
    + rewrite lookup_insert_ne by congruence. intros Hl.
      destruct (Herr1 n e Hl) as (v & Hg & ->).
      pose proof (get_field_Some _ _ _ Hg) as Hn.
      rewrite (G n Hname Hn), (proj2 (str_eq_false n name) Hne).
      destruct (str_eq name (js "program") && str_eq n (js "yearLevel"))
        eqn:E.
      * apply andb_true_iff in E as [_ E]. apply str_eq_true in E as ->.
        exists (js ""). split; [reflexivity |].
        now rewrite !validateField_unrestricted by discriminate.
      * now exists v.
  - intros n v Hg. pose proof (get_field_Some _ _ _ Hg) as Hn.
    rewrite (G n Hname Hn) in Hg.
    destruct (str_eq n name) eqn:E.
    + apply str_eq_true in E as ->. injection Hg as <-. right.
      apply lookup_insert_eq.
    + apply str_eq_false in E.
      destruct (str_eq name (js "program") && str_eq n (js "yearLevel")).
      * injection Hg as <-. now left.
      * destruct (Herr2 n v Hg) as [-> | Hl]; [now left | right].
        now rewrite lookup_insert_ne by congruence.
  - destruct pending as [| snapshot [| ? ?]]; [exact Hproc | | exact Hproc].
    rewrite Hr in Hproc. exact Hproc.
Qed.

Lemma submitStart_invariant ls0 p :
  offered p SubmitStart = true ->
  page_invariant ls0 p ->
  page_invariant ls0
    (mkPage (fst (fst (submitStart (component p)))) (stored p)
       (processing p
        ++ match snd (fst (submitStart (component p))) with
           | Some fd => [fd]
           | None => []
           end)).
Proof.
  destruct p as [st ls pending]. unfold offered. cbv zeta.
  cbn [component stored processing].
  rewrite andb_true_iff, !negb_true_iff, submitDisabled_false.
  intros (Hr & Hp & Hc) Inv.
  pose proof Inv as (Hprog & Hyear & Herr1 & Herr2 & Hproc & Hreg & Hstore).
  cbn [component stored processing] in *.
  assert (pending = []) as ->.
  { destruct pending as [| ? [| ? ?]]; [reflexivity | | contradiction].
    destruct Hproc as [Hproc _]. congruence. }
  rewrite (submitStart_complete st Hc).
  destruct (hasErrors (fieldErrors st)) eqn:He; cbn [fst snd app].
  - exact Inv.
  - unfold page_invariant. cbv zeta.
    cbn [component stored processing formData isProcessing isRegistered
         showModal fieldErrors registrationData].
    repeat (split; [assumption |]). split; [| split; assumption].
    split; [reflexivity |]. split; [exact Hr |]. intros env.
    now apply (checked_form_valid env (formData st) (fieldErrors st)).
Qed.

Lemma submitFinish_invariant ls0 env snapshot st ls :
  page_invariant ls0 (mkPage st ls [snapshot]) ->
  page_invariant ls0
    (mkPage (fst (fst (submitFinish env snapshot st ls)))
       (snd (fst (submitFinish env snapshot st ls))) []).
Proof.
  intros (Hprog & Hyear & Herr1 & Herr2 & Hproc & Hreg & Hstore).
  cbn [component stored processing] in *.
  destruct Hproc as (_ & Hr & Hvalid). rewrite Hr in Hreg.
  unfold submitFinish, setItem. cbv zeta.
  destruct (quota_allows env ls _ _); cbn [fst snd]; unfold page_invariant;
    cbv zeta;
    cbn [component stored processing formData isProcessing isRegistered
         showModal fieldErrors registrationData].
  - repeat (split; [assumption || reflexivity |]).
    split.
    + exists (generateStaticIdentity env snapshot).
      split; [reflexivity |]. split; [apply Hvalid | apply lookup_insert_eq].
    + intros key value.
      destruct (decide (key = js "student_" ++ studentNumber snapshot))
        as [-> | Hne].
      * rewrite lookup_insert_eq. intros [= <-]. right.
        exists (generateStaticIdentity env snapshot).
        split; [reflexivity |]. split; [reflexivity | apply Hvalid].
      * rewrite lookup_insert_ne by congruence. apply Hstore.
  - rewrite Hr. repeat (split; [assumption || reflexivity |]). exact Hstore.
Qed.

Lemma fire_invariant ls0 e p p' :
  page_invariant ls0 p -> fire e p = Some p' -> page_invariant ls0 p'.
Proof.
  intros Inv. unfold fire.
  destruct (offered p e) eqn:Hoff; [| discriminate]. intros [= <-].
  destruct e as [name value | | env | dataUrl | |].
  - now apply change_invariant.
  - pose proof (submitStart_invariant ls0 p Hoff Inv) as H.
    now destruct (submitStart (component p)) as [[st' snapshot] effects].
  - destruct p as [st ls pending]. unfold offered in Hoff.
    cbn [component stored processing] in *.
    destruct pending as [| snapshot rest]; [discriminate Hoff |].
    assert (rest = []) as ->.
    { destruct Inv as (_ & _ & _ & _ & Hproc & _).
      cbn [processing] in Hproc. now destruct rest. }
    pose proof (submitFinish_invariant ls0 env snapshot st ls Inv) as H.
    now destruct (submitFinish env snapshot st ls) as [[st' ls'] effects].
  - exact Inv.
  - destruct p as [st ls pending].
    destruct Inv as (Hprog & Hyear & Herr1 & Herr2 & Hproc & Hreg & Hstore).
    unfold page_invariant, closeModal. cbv zeta.
    cbn [component stored processing formData isProcessing isRegistered
         showModal fieldErrors registrationData] in *.
    repeat (split; [assumption |]). split; [| exact Hstore].
    destruct (isRegistered st); [exact Hreg | now split].
  - destruct p as [st ls pending]. unfold offered in Hoff.
    destruct Inv as (_ & _ & _ & _ & Hproc & _ & Hstore).
    cbn [component stored processing] in *.
    assert (pending = []) as ->.
    { destruct pending as [| ? [| ? ?]]; [reflexivity | | contradiction].
      destruct Hproc as (_ & Hr & _). congruence. }
    pose proof (initial_page_invariant ls0) as (I1 & I2 & I3 & I4 & _ & I6 & _).
    unfold page_invariant, resetForm. cbv zeta.
    cbn [component stored processing formData isProcessing isRegistered
         showModal fieldErrors registrationData initialPage] in *.
    split; [exact I1 |]. split; [exact I2 |]. split; [exact I3 |].
    split; [exact I4 |]. split; [exact Hproc |].
    split; [exact I6 | exact Hstore].
Qed.

Lemma session_invariant ls0 events :
  forall p p',
    page_invariant ls0 p -> session events p = Some p' ->
    page_invariant ls0 p'.
Proof.
  induction events as [| e events IH]; intros p p' Inv; cbn [session].
  - now intros [= <-].
  - destruct (fire e p) as [p1 |] eqn:F; [| discriminate].
    apply IH. now apply (fire_invariant ls0 e p).
Qed.

Lemma session_app events1 events2 p :
  session (events1 ++ events2) p
  = match session events1 p with
    | Some p' => session events2 p'
    | None => None
    end.
Proof.
  revert p. induction events1 as [| e events1 IH]; intros p;
    cbn [app session]; [reflexivity |].
  destruct (fire e p); [apply IH | reflexivity].
Qed.

(** Every page of a session that starts on the initial form satisfies the
    invariant. *)
Lemma reachable_invariant ls0 events p :
  session events (initialPage ls0) = Some p -> page_invariant ls0 p.
Proof.
  apply session_invariant, initial_page_invariant.
Qed.

Lemma ana_session_page :
  session ana_session (initialPage ∅) = Some ana_page.
Proof. vm_compute. reflexivity. Qed.

Lemma next_student_session_page :
  session next_student_session (initialPage ∅) = Some next_student_page.
Proof. vm_compute. reflexivity. Qed.


(** X8.  Throughout a session the program is empty or one of the two listed,
    and the year level is empty or one of the year levels of the program
    the form holds: no year level of another program stays behind, and none
    without a program. *)
Theorem year_level_of_program (events : list ui_event)
  (ls0 : gmap (list N) (list N)) (p : Page) :
  session events (initialPage ls0) = Some p ->
  In (program (formData (component p))) (js "" :: programs)
  /\ In (yearLevel (formData (component p)))
       (js "" :: getYearLevels (program (formData (component p))))
  /\ (program (formData (component p)) = js "" ->
      yearLevel (formData (component p)) = js "").
Proof.
  intros H. apply reachable_invariant in H as (Hp & Hy & _).
  split; [exact Hp |]. split; [exact Hy |].
  intros E. rewrite E in Hy. destruct Hy as [Hy | []]. now symmetry.
Qed.

Lemma year_level_of_program_witness :
  In (yearLevel (formData (component next_student_page)))
    (js "" :: getYearLevels (program (formData (component next_student_page)))).
Proof.
  exact (proj1 (proj2 (year_level_of_program next_student_session ∅
                         next_student_page next_student_session_page))).
Defined.

(** X9.  Throughout a session the error map is in step with the form: some
    entry holds a message exactly when the student number is non-empty and
    not of the strict format, or a name is non-empty and holds a character
    that is neither a letter nor white space.  No stale error remains. *)
Theorem errors_in_step (events : list ui_event)
  (ls0 : gmap (list N) (list N)) (p : Page) :
  session events (initialPage ls0) = Some p ->
  hasErrors (fieldErrors (component p)) = true <->
  (studentNumber (formData (component p)) <> js ""
   /\ ~ canonical_format (studentNumber (formData (component p))))
  \/ (firstName (formData (component p)) <> js ""
      /\ only_letters_and_whitespace (firstName (formData (component p)))
         = false)
  \/ (lastName (formData (component p)) <> js ""
      /\ only_letters_and_whitespace (lastName (formData (component p)))
         = false).
Proof.
  intros H. apply reachable_invariant in H as (_ & _ & H1 & H2 & _).
  destruct p as [st ls pending]. cbn [component] in *.
  assert (SN : forall v, validateField (js "studentNumber") v <> js "" <->
                         v <> js "" /\ ~ canonical_format v).
  { intros v. rewrite validateField_studentNumber_ok, test_studentIdPattern.
    split; [tauto |]. intros [Hv Hc] [E | E]; tauto. }
  assert (NM : forall name v,
             name = js "firstName" \/ name = js "lastName" ->
             validateField name v <> js "" <->
             v <> js "" /\ only_letters_and_whitespace v = false).
  { intros name v Hn. rewrite (validateField_name_ok name v Hn), test_namePattern.
    destruct v as [| c v']; cbn [truthy andb].
    - split; [intros E; exfalso; apply E; now left | intros [E _]; easy].
    - destruct (only_letters_and_whitespace (c :: v')); split.
      + intros E. exfalso. apply E. now right.
      + intros [_ E]. discriminate E.
      + now intros _.
      + intros _ [E | E]; discriminate E. }
  rewrite hasErrors_true. split.
  - intros (name & e & Hl & He). destruct (H1 name e Hl) as (v & Hg & ->).
    pose proof (get_field_Some _ _ _ Hg) as Hn.
    unfold field_names in Hn. simpl In in Hn.
    destruct Hn as [<- | [<- | [<- | [<- | [<- | []]]]]];
      injection Hg as <-.
    + left. now apply SN.
    + right. right. apply (NM (js "lastName")); [now right | exact He].
    + right. left. apply (NM (js "firstName")); [now left | exact He].
    + exfalso. apply He. now apply validateField_unrestricted.
    + exfalso. apply He. now apply validateField_unrestricted.
  - assert (G : forall name v, get_field (formData st) name = Some v ->
                validateField name v <> js "" ->
                exists name error,
                  fieldErrors st !! name = Some error /\ error <> js "").
    { intros name v Hg Hv. destruct (H2 name v Hg) as [-> | Hl].
      - exfalso. apply Hv, validateField_empty.
      - now exists name, (validateField name v). }
    intros [Hs | [Hf | Hl]].
    + apply (G (js "studentNumber") _ eq_refl). now apply SN.
    + apply (G (js "firstName") _ eq_refl). apply NM; [now left | exact Hf].
    + apply (G (js "lastName") _ eq_refl). apply NM; [now right | exact Hl].
Qed.

Lemma errors_in_step_witness :
  hasErrors (fieldErrors (component next_student_page)) = true <->
  (studentNumber (formData (component next_student_page)) <> js ""
   /\ ~ canonical_format
          (studentNumber (formData (component next_student_page))))
  \/ (firstName (formData (component next_student_page)) <> js ""
      /\ only_letters_and_whitespace
           (firstName (formData (component next_student_page))) = false)
  \/ (lastName (formData (component next_student_page)) <> js ""
      /\ only_letters_and_whitespace
           (lastName (formData (component next_student_page))) = false).
Proof.
  exact (errors_in_step next_student_session ∅ next_student_page
           next_student_session_page).
Defined.





(** X12.  The reset, offered in the registered view, leads back to the
    initial state of the component and leaves the local storage as it is:
    the page is the one a new visit would start on with the records kept. *)
Theorem reset_restores_initial (events : list ui_event)
  (ls0 : gmap (list N) (list N)) (p : Page) :
  session events (initialPage ls0) = Some p ->
  isRegistered (component p) = true ->
  resetForm (component p) = initialState
  /\ session (events ++ [Reset]) (initialPage ls0)
     = Some (initialPage (stored p)).
Proof.
  intros H Hr.
  pose proof (reachable_invariant _ _ _ H) as (_ & _ & _ & _ & Hproc & _).
  destruct p as [st ls pending]. cbn [component stored processing] in *.
  assert (pending = []) as ->.
  { destruct pending as [| ? [| ? ?]]; [reflexivity | | contradiction].
    destruct Hproc as (_ & Hn & _). congruence. }
  assert (R : resetForm st = initialState)
    by (unfold resetForm; now rewrite Hproc).
  split; [exact R |].
  rewrite session_app, H. cbn [session]. unfold fire, offered.
  cbn [component stored processing]. now rewrite Hr, R.
Qed.

Lemma reset_restores_initial_witness :
  resetForm (component ana_page) = initialState
  /\ session (ana_session ++ [Reset]) (initialPage ∅)
     = Some (initialPage (stored ana_page)).
Proof.
  apply (reset_restores_initial ana_session ∅ ana_page ana_session_page).
  reflexivity.
Defined.



Lemma fire_Change name value p :
  offered p (Change name value) = true ->
  fire (Change name value) p
  = Some (mkPage (handleInputChange name value (component p)) (stored p)
            (processing p)).
Proof. intros H. unfold fire. now rewrite H. Qed.

(** X7.  Validation rejects no valid input: on any page of a session that
    shows the form with no submission under way, filling in a student number
    of the strict format, two non-empty names of letters and white space, a
    listed program and one of its year levels, and submitting where the
    storage accepts the write, registers the student: the record of exactly
    these values is stored under the student number and the component shows
    the registered view. *)
Theorem valid_input_registers (events : list ui_event)
  (ls0 : gmap (list N) (list N)) (p : Page) (fd : FormData) (env : Browser) :
  session events (initialPage ls0) = Some p ->
  isRegistered (component p) = false ->
  processing p = [] ->
  canonical_format (studentNumber fd) ->
  firstName fd <> js "" -> only_letters_and_whitespace (firstName fd) = true ->
  lastName fd <> js "" -> only_letters_and_whitespace (lastName fd) = true ->
  In (program fd) programs ->
  In (yearLevel fd) (getYearLevels (program fd)) ->
  quota_allows env (stored p) (js "student_" ++ studentNumber fd)
    (Identity.stringify (generateStaticIdentity env fd)) = true ->
  exists st',
    session (events ++ fill_in fd ++ [SubmitStart; SubmitFinish env])
      (initialPage ls0)
    = Some (mkPage st'
              (<[js "student_" ++ studentNumber fd
                 := Identity.stringify (generateStaticIdentity env fd)]>
                 (stored p)) [])
    /\ isRegistered st' = true
    /\ formData st' = fd
    /\ registrationData st' = Some (generateStaticIdentity env fd).
Proof.
  intros Hs Hr Hpend Hsn Hfn Hfv Hln Hlv Hp Hy Hq.
  pose proof (reachable_invariant _ _ _ Hs)
    as (_ & _ & Herr1 & _ & Hproc & _).
  destruct p as [st ls pending]. cbn [component stored processing] in *.
  subst pending. destruct fd as [sn ln fn pr yl].
  cbn [studentNumber lastName firstName program yearLevel] in *.
  rewrite session_app, Hs. unfold fill_in.
  cbn [studentNumber lastName firstName program yearLevel session app].
  set (st1 := handleInputChange (js "studentNumber") sn st).
  set (st2 := handleInputChange (js "firstName") fn st1).
  set (st3 := handleInputChange (js "lastName") ln st2).
  set (st4 := handleInputChange (js "program") pr st3).
  set (st5 := handleInputChange (js "yearLevel") yl st4).
  assert (R1 : isRegistered st1 = false) by exact Hr.
  assert (R2 : isRegistered st2 = false) by exact Hr.
  assert (R3 : isRegistered st3 = false) by exact Hr.
  assert (R4 : isRegistered st4 = false) by exact Hr.
  assert (R5 : isRegistered st5 = false) by exact Hr.
  assert (P5 : isProcessing st5 = false) by exact Hproc.
  assert (O : forall s name value, isRegistered s = false ->
                name = js "studentNumber" \/ name = js "firstName"
                \/ name = js "lastName" ->
                offered (mkPage s ls []) (Change name value) = true).
  { intros s name value Hs0 Hn. unfold offered. cbv zeta. cbn [component].
    rewrite Hs0. cbn [negb andb].
    destruct Hn as [-> | [-> | ->]]; reflexivity. }
  rewrite (fire_Change (js "studentNumber") sn (mkPage st ls []))
    by (apply O; auto).
  cbn [component stored processing]. fold st1.
  rewrite (fire_Change (js "firstName") fn (mkPage st1 ls []))
    by (apply O; auto).
  cbn [component stored processing]. fold st2.
  rewrite (fire_Change (js "lastName") ln (mkPage st2 ls []))
    by (apply O; auto 10).
  cbn [component stored processing]. fold st3.
  rewrite (fire_Change (js "program") pr (mkPage st3 ls [])).
  2:{ unfold offered. cbv zeta. cbn [component]. rewrite R3.
      replace (has_option (js "" :: programs) pr) with true
        by (symmetry; apply has_option_In; now right).
      reflexivity. }
  cbn [component stored processing]. fold st4.
  rewrite (fire_Change (js "yearLevel") yl (mkPage st4 ls [])).
  2:{ unfold offered. cbv zeta. cbn [component]. rewrite R4.
      change (program (formData st4)) with pr.
      replace (has_option (js "" :: getYearLevels pr) yl) with true
        by (symmetry; apply has_option_In; now right).
      reflexivity. }
  cbn [component stored processing]. fold st5.
  assert (F5 : formData st5 = mkFormData sn ln fn pr yl) by reflexivity.
  assert (T : truthy sn = true /\ truthy fn = true /\ truthy ln = true
              /\ truthy pr = true /\ truthy yl = true).
  { rewrite !truthy_nonempty. repeat split; try assumption.
    - destruct Hsn as (y & q & Hy4 & _ & _ & _ & ->).
      destruct y; [discriminate Hy4 | discriminate].
    - intros ->. simpl in Hp. destruct Hp as [H | [H | []]]; discriminate H.
    - intros ->. unfold getYearLevels in Hy.
      destruct (str_eq pr _); [simpl in Hy; intuition discriminate |].
      destruct (str_eq pr _); simpl in Hy; intuition discriminate. }
  destruct T as (Tsn & Tfn & Tln & Tpr & Tyl).
  assert (C5 : complete (formData st5) = true).
  { rewrite F5. unfold complete.
    cbn [studentNumber lastName firstName program yearLevel].
    now rewrite Tsn, Tfn, Tln, Tpr, Tyl. }
  assert (E5 : hasErrors (fieldErrors st5) = false).
  { apply hasErrors_false. intros name e. unfold st5, st4, st3, st2, st1.
    rewrite !handleInputChange_fieldErrors.
    destruct (decide (name = js "yearLevel")) as [-> | N5];
      [rewrite lookup_insert_eq; intros [= <-];
       now apply validateField_unrestricted |].
    rewrite lookup_insert_ne by congruence.
    destruct (decide (name = js "program")) as [-> | N4];
      [rewrite lookup_insert_eq; intros [= <-];
       now apply validateField_unrestricted |].
    rewrite lookup_insert_ne by congruence.
    destruct (decide (name = js "lastName")) as [-> | N3].
    { rewrite lookup_insert_eq. intros [= <-].
      apply validateField_name_ok; [now right |]. right.
      now rewrite test_namePattern, Tln, Hlv. }
    rewrite lookup_insert_ne by congruence.
    destruct (decide (name = js "firstName")) as [-> | N2].
    { rewrite lookup_insert_eq. intros [= <-].
      apply validateField_name_ok; [now left |]. right.
      now rewrite test_namePattern, Tfn, Hfv. }
    rewrite lookup_insert_ne by congruence.
    destruct (decide (name = js "studentNumber")) as [-> | N1].
    { rewrite lookup_insert_eq. intros [= <-].
      apply validateField_studentNumber_ok. right.
      now apply test_studentIdPattern. }
    rewrite lookup_insert_ne by congruence. intros Hl.
    destruct (Herr1 name e Hl) as (v & Hg & _).
    apply get_field_Some in Hg. unfold field_names in Hg. simpl In in Hg.
    destruct Hg as [<- | [<- | [<- | [<- | [<- | []]]]]]; exfalso;
      [apply N1 | apply N3 | apply N2 | apply N4 | apply N5]; reflexivity. }
  assert (D5 : submitDisabled st5 = false)
    by (apply submitDisabled_false; now split).
  unfold fire at 1. unfold offered at 1. cbv zeta. cbn [component].
  rewrite R5, D5. cbn [negb andb].
  rewrite (submitStart_complete st5 C5), E5.
  cbn [component stored processing app].
  unfold fire, offered. cbn [component stored processing].
  unfold submitFinish, setItem. cbv zeta. rewrite F5.
  cbn [studentNumber]. rewrite Hq.
  eexists. split; [reflexivity |].
  split; [reflexivity |]. split; [exact F5 | reflexivity].
Qed.

Lemma valid_input_registers_witness :
  exists st',
    session (next_student_session ++ fill_in ana_form
             ++ [SubmitStart; SubmitFinish a_browser])
      (initialPage ∅)
    = Some (mkPage st'
              (<[js "student_" ++ studentNumber ana_form
                 := Identity.stringify
                      (generateStaticIdentity a_browser ana_form)]>
                 (stored next_student_page)) [])
    /\ isRegistered st' = true
    /\ formData st' = ana_form
    /\ registrationData st' = Some (generateStaticIdentity a_browser ana_form).
Proof.
  pose proof ana_form_well_formed as (W1 & _ & _ & _ & _ & W6 & W7).
  apply (valid_input_registers next_student_session ∅ next_student_page
           ana_form a_browser next_student_session_page);
    [reflexivity | reflexivity | exact W1 | discriminate | reflexivity
     | discriminate | reflexivity | exact W6 | exact W7 | reflexivity].
Defined.
